(** * Energy-Advice weather script: a shallow embedding of
      [meteo_data_analize_script.py] and the properties of its
      interpolation, merge, time-zone, statistics and fetch code.

    Conventions of the embedding.

    - A timestamp is a [Z]: seconds since 1970-01-01T00:00:00 (the API
      delivers timestamps with a precision of one second).  A naive local
      timestamp counts the seconds of the local wall clock the same way.
    - A float64 value is a rational [Q]: arithmetic is exact, there is no
      rounding and no NaN among the numbers.  A missing cell of a pandas
      object (NaN) is [None] in a column of [option Q].
    - A Python call that can raise returns a [result]. *)

From Stdlib Require Import ZArith QArith List String Ascii Bool Lia Permutation.
From Stdlib Require Import DecimalString Lqa.
Import ListNotations.
Open Scope Z_scope.

(** ** Python results *)

Inductive exn : Type :=
| IndexError      (* index 0 is out of bounds for axis 0 with size 0 *)
| ValueError      (* length mismatch, or reindexing a duplicated axis *)
| TypeError       (* 'NoneType' object is not subscriptable *)
| KeyError
| AmbiguousTimeError
| NonExistentTimeError.

Inductive result (A : Type) : Type :=
| Ok (a : A)
| Raise (e : exn).
Arguments Ok {A} a.
Arguments Raise {A} e.

Definition bind {A B : Type} (r : result A) (k : A -> result B) : result B :=
  match r with
  | Ok a => k a
  | Raise e => Raise e
  end.

Notation "'let*' x ':=' r 'in' k" := (bind r (fun x => k))
  (at level 10, x name, r at level 100, k at level 200).

(** ** Series and tables *)

(** A pandas Series with a DatetimeIndex: the rows in order, each with
    its index label. *)
Definition Series (A : Type) : Type := list (Z * A).

Definition index {A : Type} (s : Series A) : list Z := map fst s.
Definition values {A : Type} (s : Series A) : list A := map snd s.

(** [pd.Series(data, index=idx)]: the two lengths must agree. *)
Definition pd_Series {A : Type} (data : list A) (idx : list Z) : result (Series A) :=
  if Nat.eqb (List.length data) (List.length idx)
  then Ok (combine idx data)
  else Raise ValueError.

(** [s.loc[t]] on a series whose index is unique: the row labelled [t]. *)
Fixpoint loc {A : Type} (s : Series A) (t : Z) : option A :=
  match s with
  | [] => None
  | (t', a) :: rest => if t' =? t then Some a else loc rest t
  end.

Fixpoint mem (t : Z) (l : list Z) : bool :=
  match l with
  | [] => false
  | t' :: rest => (t' =? t) || mem t rest
  end.

(** [Index.is_unique]. *)
Fixpoint is_unique (l : list Z) : bool :=
  match l with
  | [] => true
  | t :: rest => negb (mem t rest) && is_unique rest
  end.

(** ** Clock arithmetic on timestamps *)

Definition five_minutes : Z := 300.
Definition one_hour : Z := 3600.
Definition one_day : Z := 86400.

(** The left edge of the 5-minute bin of [t].  pandas anchors the bins
    at midnight of the first day (origin "start_day"); a day is a whole
    number of 5-minute bins, so the edges are the multiples of 300. *)
Definition floor5 (t : Z) : Z := five_minutes * (t / five_minutes).

Definition minimum (t : Z) (l : list Z) : Z := fold_left Z.min l t.
Definition maximum (t : Z) (l : list Z) : Z := fold_left Z.max l t.

(** [date_range(lo, hi, freq="5min")], both ends included. *)
Definition date_range (lo hi : Z) : list Z :=
  map (fun k => lo + five_minutes * Z.of_nat k)
      (seq 0 (Z.to_nat ((hi - lo) / five_minutes + 1))).

(** The labels of [resample("5min")]: the bins from the one holding the
    earliest timestamp to the one holding the latest. *)
Definition resample_labels (idx : list Z) : list Z :=
  match idx with
  | [] => []
  | t :: rest => date_range (floor5 (minimum t rest)) (floor5 (maximum t rest))
  end.

(** The distance between the bin of the earliest and the bin of the
    latest timestamp. *)
Definition span5 (idx : list Z) : Z :=
  match idx with
  | [] => 0
  | t :: rest => floor5 (maximum t rest) - floor5 (minimum t rest)
  end.

(** Stable insertion sort by label: resample orders the rows by time
    before it bins them. *)
Fixpoint insert_row {A : Type} (r : Z * A) (s : Series A) : Series A :=
  match s with
  | [] => [r]
  | r' :: rest => if fst r' <=? fst r then r' :: insert_row r rest else r :: s
  end.

Fixpoint sort_index {A : Type} (s : Series A) : Series A :=
  match s with
  | [] => []
  | r :: rest => insert_row r (sort_index rest)
  end.

(** [all_spaced d l]: consecutive labels of [l] are exactly [d] apart. *)
Fixpoint all_spaced (d : Z) (l : list Z) : bool :=
  match l with
  | t1 :: (t2 :: _) as rest => (t2 - t1 =? d) && all_spaced d rest
  | _ => true
  end.

(** [index.inferred_freq == "5min"]: at least three labels, increasing in
    steps of five minutes. *)
Definition inferred_5min (idx : list Z) : bool :=
  (3 <=? List.length idx)%nat && all_spaced five_minutes idx.

(** [series.resample("5min").asfreq()].

    An upsample: the result is the series reindexed on the 5-minute
    labels, NaN wherever the series has no row with exactly that label.
    Reindexing needs a unique index ("cannot reindex on an axis with
    duplicate labels").  A series that already has the 5-minute
    frequency and as many rows as there are labels only gets the labels
    as its new index. *)
Definition resample_asfreq (s : Series Q) : result (Series (option Q)) :=
  let sorted := sort_index s in
  let labels := resample_labels (index s) in
  if inferred_5min (index sorted) && Nat.eqb (List.length s) (List.length labels)
  then Ok (combine labels (map Some (values sorted)))
  else if is_unique (index s)
       then Ok (map (fun t => (t, loc s t)) labels)
       else Raise ValueError.

(** ** The two interpolations (lines 141-156) *)

(** [np.arange(1, 12, 1)]. *)
Definition arange_1_12 : list Z := map Z.of_nat (seq 1 11).

(** [(e - s) / 12 * np.arange(1, 12, 1) + s]. *)
Definition interpolated_segment (s e : Q) : list Q :=
  map (fun k => ((e - s) / 12 * inject_Z k + s)%Q) arange_1_12.

(** [zip(series.values[:-1], series.values[1:])]. *)
Definition consecutive_pairs (vs : list Q) : list (Q * Q) :=
  combine (removelast vs) (tl vs).

(** One turn of the [for] loop: the accumulator grows by the segment and
    the end value. *)
Definition interpolation_step (interpolated_data : list Q) (se : Q * Q) : list Q :=
  let (s, e) := se in
  interpolated_data ++ interpolated_segment s e ++ [e].

(** [custom_linear_interpolation(series, interpolation_type)].  The
    result [Ok None] is Python's implicit [return None]. *)
Definition custom_linear_interpolation (series : Series Q) (interpolation_type : string)
  : result (option (Series Q)) :=
  let* resampled := resample_asfreq series in
  let resampled_index := index resampled in
  if String.eqb interpolation_type "linear"
  then
    match values series with
    | [] => Raise IndexError                     (* series.values[0] *)
    | v0 :: _ =>
        let interpolated_data :=
          fold_left interpolation_step (consecutive_pairs (values series)) [v0] in
        let* out := pd_Series interpolated_data resampled_index in
        Ok (Some out)
    end
  else Ok None.

(** Series used as examples below. *)
Definition series_hourly : Series Q := [(0, 0%Q); (3600, 12%Q); (7200, 6%Q)].
Definition series_unaligned : Series Q := [(120, 0%Q); (3720, 12%Q)].
Definition series_two_hours : Series Q := [(0, 0%Q); (7200, 12%Q)].
Definition series_uneven : Series Q := [(0, 0%Q); (1800, 12%Q); (7200, 24%Q)].
Definition series_one_point : Series Q := [(7, 5%Q)].
Definition series_duplicate : Series Q := [(0, 1%Q); (0, 2%Q)].

(** [np.interp] at position [x] between the known points [(xj, fj)] and
    [(xk, fk)]: [slope * (x - xj) + fj]. *)
Definition np_interp (xj : nat) (fj : Q) (xk : nat) (fk : Q) (x : nat) : Q :=
  let slope := ((fk - fj) / inject_Z (Z.of_nat xk - Z.of_nat xj))%Q in
  (slope * inject_Z (Z.of_nat x - Z.of_nat xj) + fj)%Q.

(** The first known value of [l] and its position, counting from [pos]. *)
Fixpoint next_valid (pos : nat) (l : list (option Q)) : option (nat * Q) :=
  match l with
  | [] => None
  | Some v :: _ => Some (pos, v)
  | None :: rest => next_valid (S pos) rest
  end.

(** [interpolate(method="linear")] on the values, left to right; [prev]
    is the last known value seen so far.  The values count as equally
    spaced.  NaN before the first known value stays; NaN after the last
    known value takes that value (limit_direction "forward"). *)
Fixpoint interpolate_from (prev : option (nat * Q)) (pos : nat) (l : list (option Q))
  : list (option Q) :=
  match l with
  | [] => []
  | Some v :: rest => Some v :: interpolate_from (Some (pos, v)) (S pos) rest
  | None :: rest =>
      (match prev with
       | None => None
       | Some (xj, fj) =>
           match next_valid (S pos) rest with
           | None => Some fj
           | Some (xk, fk) => Some (np_interp xj fj xk fk pos)
           end
       end) :: interpolate_from prev (S pos) rest
  end.

Definition interpolate_linear (s : Series (option Q)) : Series (option Q) :=
  combine (index s) (interpolate_from None 0 (values s)).

(** [built_in_interpolation(series, interpolation_method)] for the method
    "linear", the one the script uses. *)
Definition built_in_interpolation (series : Series Q) : result (Series (option Q)) :=
  let* resampled := resample_asfreq series in
  Ok (interpolate_linear resampled).

(** ** The merge of the historical and the forecast table (lines 125-126) *)

(** A DataFrame with a DatetimeIndex: its rows in order, each with its
    label.  A row of type [R] gives the cell under every column name,
    NaN under a column it has no value for: [pd.concat] gives its result
    the union of the columns and fills the new cells with NaN, so a row
    read this way is the same before and after. *)
Definition DataFrame (R : Type) : Type := Series R.

(** [pd.concat([a, b], axis=0)]. *)
Definition pd_concat {R : Type} (a b : DataFrame R) : DataFrame R := a ++ b.

(** [Index.duplicated(keep="first")]: a label is flagged when it occurred
    earlier; [seen] holds the labels passed so far. *)
Fixpoint duplicated_from (seen : list Z) (idx : list Z) : list bool :=
  match idx with
  | [] => []
  | t :: rest => mem t seen :: duplicated_from (t :: seen) rest
  end.

Definition duplicated (idx : list Z) : list bool := duplicated_from [] idx.

(** [df.loc[mask]] for a boolean mask. *)
Definition loc_mask {A : Type} (s : Series A) (mask : list bool) : Series A :=
  map fst (filter snd (combine s mask)).

(** [all_weather], lines 125-126. *)
Definition all_weather {R : Type} (historical_weather forecast_weather : DataFrame R)
  : DataFrame R :=
  let all := pd_concat historical_weather forecast_weather in
  loc_mask all (map negb (duplicated (index all))).

(** The first row labelled [t]. *)
Definition row_at {R : Type} (df : DataFrame R) (t : Z) : option R := loc df t.

(** ** The time-zone normalisation (lines 44-51 and 57-63) *)

(** Days since 1970-01-01 of a date of the proleptic Gregorian calendar. *)
Definition days_from_civil (y m d : Z) : Z :=
  let y' := if m <=? 2 then y - 1 else y in
  let era := y' / 400 in
  let yoe := y' - era * 400 in
  let mp := (m + 9) mod 12 in
  let doy := (153 * mp + 2) / 5 + d - 1 in
  let doe := yoe * 365 + yoe / 4 - yoe / 100 + doy in
  era * 146097 + doe - 719468.

(** The calendar year of a day number. *)
Definition year_of_day (z : Z) : Z :=
  let z' := z + 719468 in
  let era := z' / 146097 in
  let doe := z' - era * 146097 in
  let yoe := (doe - doe / 1460 + doe / 36524 - doe / 146096) / 365 in
  let doy := doe - (365 * yoe + yoe / 4 - yoe / 100) in
  let mp := (5 * doy + 2) / 153 in
  let m := if mp <? 10 then mp + 3 else mp - 9 in
  let y := yoe + era * 400 in
  if m <=? 2 then y + 1 else y.

(** The last Sunday of a month of 31 days; day 0 was a Thursday. *)
Definition last_sunday (y m : Z) : Z :=
  let d := days_from_civil y m 31 in
  d - (d + 4) mod 7.

(** Summer time in the European Union starts on the last Sunday of March
    and ends on the last Sunday of October, both at 01:00 UTC. *)
Definition summer_time_start (y : Z) : Z := last_sunday y 3 * one_day + one_hour.
Definition summer_time_end (y : Z) : Z := last_sunday y 10 * one_day + one_hour.

Definition EET : Z := 2 * one_hour.
Definition EEST : Z := 3 * one_hour.

(** The UTC offset of Europe/Vilnius at the UTC instant [u].  The zone
    data is not part of the repository; this is the rule in force for
    the zone since 2003, which covers every instant the script asks the
    API for (the last year and the forecast). *)
Definition vilnius_utcoffset (u : Z) : Z :=
  let y := year_of_day (u / one_day) in
  if (summer_time_start y <=? u) && (u <? summer_time_end y) then EEST else EET.

(** [.tz_localize("UTC").tz_convert("Europe/Vilnius").tz_localize(None)]
    on one timestamp: the local wall clock, the offset dropped. *)
Definition to_naive_local (u : Z) : Z := u + vilnius_utcoffset u.

(** The index of a normalised table. *)
Definition normalize_index (utc : list Z) : list Z := map to_naive_local utc.

(** The conversion back, [.tz_localize("Europe/Vilnius").tz_convert("UTC")]
    with the defaults of pandas: a wall-clock time that occurs twice is
    refused, one that never occurs too.  The script has no such step; it
    is the inverse the round-trip property of the normaliser speaks of. *)
Definition to_utc (l : Z) : result Z :=
  match filter (fun o => vilnius_utcoffset (l - o) =? o) [EEST; EET] with
  | [o] => Ok (l - o)
  | [] => Raise NonExistentTimeError
  | _ => Raise AmbiguousTimeError
  end.

(** [u] lies in the hour before or the hour after the end of summer
    time: the offset drops within one hour of it. *)
Definition in_repeated_hour (u : Z) : bool :=
  ((vilnius_utcoffset u =? EEST) && (vilnius_utcoffset (u + one_hour) =? EET))
  || ((vilnius_utcoffset u =? EET) && (vilnius_utcoffset (u - one_hour) =? EEST)).

(** ** The statistics (lines 88-122) *)

Definition date_of (l : Z) : Z := l / one_day.
Definition weekday (l : Z) : Z := (date_of l + 3) mod 7.




(** A cell of the column "conditionCode": a string, JSON null, or the
    NaN of a row that a merge left without a partner. *)
Inductive cell : Type :=
| CStr (s : string)
| CNone
| CNaN.

(** [str(x)] of a cell. *)
Definition py_str (c : cell) : string :=
  match c with
  | CStr s => s
  | CNone => "None"
  | CNaN => "nan"
  end.

(** [needle in haystack] for Python strings. *)
Fixpoint contains (needle haystack : string) : bool :=
  prefix needle haystack
  || match haystack with
     | EmptyString => false
     | String _ rest => contains needle rest
     end.

(** [lambda x: "rain" in str(x)]. *)
Definition rainy (c : cell) : bool := contains "rain" (py_str c).

(** The labels of [l], each once, in increasing order. *)
Fixpoint insert_label (t : Z) (l : list Z) : list Z :=
  match l with
  | [] => [t]
  | t' :: rest =>
      if t <? t' then t :: l
      else if t =? t' then l
      else t' :: insert_label t rest
  end.

Fixpoint sorted_labels (l : list Z) : list Z :=
  match l with
  | [] => []
  | t :: rest => insert_label t (sorted_labels rest)
  end.

(** All values of [s] under the label [t]. *)
Definition all_at {A : Type} (s : Series A) (t : Z) : list A :=
  values (filter (fun r => fst r =? t) s).

(** The rows of an outer merge under the label [t]: every left value
    with every right value, NaN for a side that has none. *)
Definition merge_rows (left right : Series cell) (t : Z) : Series (cell * cell) :=
  match all_at left t, all_at right t with
  | [], rs => map (fun r => (t, (CNaN, r))) rs
  | ls, [] => map (fun l => (t, (l, CNaN))) ls
  | ls, rs => map (fun lr => (t, lr)) (list_prod ls rs)
  end.

(** [pd.merge(left, right, left_index=True, right_index=True, how="outer")]
    of two series: the rows under each label of either side, the labels
    in increasing order. *)
Definition merge_outer (left right : Series cell) : Series (cell * cell) :=
  flat_map (merge_rows left right) (sorted_labels (index left ++ index right)).

(** [s.index -= timedelta(days=1)]. *)
Definition shift_back_one_day {A : Type} (s : Series A) : Series A :=
  map (fun r => (fst r - one_day, snd r)) s.

(** [groupby("date").agg(list)]: per date, in increasing order of the
    dates, the flags of its rows. *)
Definition group_by_date (s : Series bool) : list (Z * list bool) :=
  map (fun d => (d, values (filter (fun r => date_of (fst r) =? d) s)))
      (sorted_labels (map date_of (index s))).

(** [lambda x: True in x]. *)
Definition true_in (x : list bool) : bool := existsb (fun b => b) x.

(** Lines 101-114: the flag of every row of the merged weekend table. *)
Definition rainy_combined (conditionCode : Series cell) : Series bool :=
  let saturday_weather := filter (fun r => weekday (fst r) =? 5) conditionCode in
  let sunday_weather :=
    shift_back_one_day (filter (fun r => weekday (fst r) =? 6) conditionCode) in
  let combined_weekend := merge_outer saturday_weather sunday_weather in
  map (fun r => (fst r, rainy (fst (snd r)) || rainy (snd (snd r)))) combined_weekend.

(** Lines 115-119: per weekend date, whether one of its rows is rainy. *)
Definition rainy_by_date (conditionCode : Series cell) : list (Z * bool) :=
  map (fun g => (fst g, true_in (snd g))) (group_by_date (rainy_combined conditionCode)).

(** [.sum()] of a boolean column. *)
Definition sum_bool (l : list bool) : Z :=
  fold_right (fun (b : bool) acc => (if b then 1 else 0) + acc) 0 l.

(** [rainy_weekend_count], lines 115-121. *)
Definition rainy_weekend_count (conditionCode : Series cell) : Z :=
  sum_bool (map snd (rainy_by_date conditionCode)).

(** ** Fetching (lines 22-42) *)

(** What [requests.get] does with a URL: it raises, or it returns a
    response with a status code and a body.  The body is the parsed JSON
    object, its lists of records under their keys. *)
Inductive record : Type :=
| Record_ (observationTimeUtc : Z) (conditionCode : cell).

Definition json : Type := list (string * list record).

Inductive response : Type :=
| Failed (error : string)
| Response (status_code : Z) (body : json).

(** A URL of the historical endpoint: the base and the day of the path
    segment [YYYY-MM-DD], kept as a day number. *)
Record url : Type := Url { base : string; day : Z }.

(** The state the fetch code acts on: the lines printed and the
    requests sent, latest first. *)
Record world : Type := World { printed : list string; requested : list url }.

Definition print (line : string) (w : world) : world :=
  World (line :: printed w) (requested w).

Definition get_item (key : string) (body : json) : result (list record) :=
  match find (fun kv => String.eqb (fst kv) key) body with
  | Some kv => Ok (snd kv)
  | None => Raise KeyError
  end.

Section Fetch.

(** The network. *)
Variable req_get : url -> response.

(** [__fetch_data]: [None] stands for Python's [None], returned by
    falling off the end after either message. *)
Definition fetch_data (u : url) (w : world) : option json * world :=
  let w := World (printed w) (u :: requested w) in
  match req_get u with
  | Failed error => (None, print ("Error fetching data: " ++ error) w)
  | Response status_code body =>
      if negb (status_code =? 200)
      then (None, print ("Failed to fetch data. HTTP status: "
                           ++ NilZero.string_of_int (Z.to_int status_code)) w)
      else (Some body, w)
  end.

(** The [while] loop of [load_historical_data], lines 38-42, with
    [days] turns left.  [fetch_data(url)["observations"]] subscripts
    whatever the fetch returned.  The pause of half a second between
    two turns has no effect on the state. *)
Fixpoint fetch_days (historical_url : string) (days : nat) (current_date : Z)
         (weather_records : list record) (w : world)
  : result (list record) * world :=
  match days with
  | O => (Ok weather_records, w)
  | S days' =>
      let (fetched, w) := fetch_data (Url historical_url current_date) w in
      match fetched with
      | None => (Raise TypeError, w)
      | Some body =>
          match get_item "observations" body with
          | Raise e => (Raise e, w)
          | Ok observations =>
              fetch_days historical_url days' (current_date + 1)
                         (weather_records ++ observations) w
          end
      end
  end.

(** The records [load_historical_data] has when its loop ends;
    [current_date < end_date] holds for [end_date - start_date] turns. *)
Definition load_historical_records (historical_url : string) (start_date end_date : Z)
           (w : world) : result (list record) * world :=
  fetch_days historical_url (Z.to_nat (end_date - start_date)) start_date [] w.

End Fetch.

(** Networks used as examples below: every day answers with one
    observation, except the day [bad]. *)
Definition station_url : string :=
  "https://api.meteo.lt/v1/stations/vilniaus-ams/observations".

Definition one_observation (d : Z) : json :=
  [("observations"%string, [Record_ (d * one_day) (CStr "clear")])].

Definition status_500_on (bad : Z) (u : url) : response :=
  if day u =? bad then Response 500 [] else Response 200 (one_observation (day u)).

Definition unreachable_on (bad : Z) (u : url) : response :=
  if day u =? bad then Failed "timed out" else Response 200 (one_observation (day u)).

Definition silent : world := World [] [].

(** ** Closed forms the statements use *)

(** What one pair contributes to the data: eleven values and the end
    value. *)
Definition block (se : Q * Q) : list Q :=
  interpolated_segment (fst se) (snd se) ++ [snd se].

(** The data the loop of the custom interpolation ends with (lemma
    [interpolation_loop]): the first value, then the blocks of the
    pairs. *)
Definition interpolated_data_of (vs : list Q) : list Q :=
  match vs with
  | [] => []
  | v0 :: _ => v0 :: flat_map block (consecutive_pairs vs)
  end.

(** [m] labels from [lo] on, five minutes apart. *)
Definition grid (lo : Z) (m : nat) : list Z :=
  map (fun k => lo + five_minutes * Z.of_nat k) (seq 0 m).



(** [increasing_from lo l]: the labels of [l] increase strictly and lie above
    [lo]. *)
Fixpoint increasing_from (lo : Z) (l : list Z) : Prop :=
  match l with
  | [] => True
  | t :: rest => lo < t /\ increasing_from t rest
  end.

Definition increasing (l : list Z) : Prop :=
  match l with
  | [] => True
  | t :: rest => increasing_from t rest
  end.


(** Tables used as examples below.  2024-01-06 was a Saturday; its day
    number is 19728. *)
Definition saturday_noon : Z := 19728 * one_day + 12 * one_hour.

Definition only_saturday : Series cell := [(saturday_noon, CStr "rain")].

Definition light_rain_then_clear : Series cell :=
  [(saturday_noon, CStr "light_rain"); (saturday_noon + one_day, CStr "clear")].

Definition dry_saturday_wet_sunday : Series cell :=
  [(saturday_noon, CStr "Rain"); (saturday_noon + one_day + one_hour, CStr "heavy-rain");
   (saturday_noon + 2 * one_day, CStr "rain")].

(** ** The rest of the loads and of the statistics *)

Definition observationTimeUtc (r : record) : Z :=
  match r with Record_ t _ => t end.

Definition conditionCode (r : record) : cell :=
  match r with Record_ _ c => c end.

(** Lines 43-51: [pd.DataFrame(weather_records)], the column
    "observationTimeUtc" made the index and normalised.  A frame built
    from no record has no column, and [set_index] raises KeyError.  The
    rows keep the order of the records; the column left is the
    condition code. *)
Definition weather_frame (weather_records : list record) : result (Series cell) :=
  match weather_records with
  | [] => Raise KeyError
  | _ :: _ =>
      Ok (map (fun r => (to_naive_local (observationTimeUtc r), conditionCode r))
              weather_records)
  end.

(** [load_historical_data], lines 33-52, on day numbers. *)
Definition load_historical_data (req_get : url -> response) (historical_url : string)
           (start_date end_date : Z) (w : world) : result (Series cell) * world :=
  let (loaded, w) := load_historical_records req_get historical_url start_date end_date w in
  match loaded with
  | Raise e => (Raise e, w)
  | Ok weather_records => (weather_frame weather_records, w)
  end.

(** What one turn of the loop of [load_historical_data] gets for a
    URL: the observations, or the exception of
    [fetch_data(url)["observations"]]. *)
Definition day_outcome (req_get : url -> response) (u : url) : result (list record) :=
  match req_get u with
  | Failed _ => Raise TypeError
  | Response status_code body =>
      if status_code =? 200 then get_item "observations" body else Raise TypeError
  end.

(** The URLs of the [n] days from [current_date] on. *)
Definition day_urls (historical_url : string) (current_date : Z) (n : nat) : list url :=
  map (fun j => Url historical_url (current_date + Z.of_nat j)) (seq 0 n).

(** The observations a list of outcomes delivers. *)
Definition delivered (outcomes : list (result (list record))) : list record :=
  flat_map (fun o => match o with Ok obs => obs | Raise _ => [] end) outcomes.









(** More series used as examples below: a forecast every three hours,
    and the hours around the end of summer time in 2024. *)
Definition series_three_hourly : Series Q :=
  [(0, 1%Q); (10800, 4%Q); (21600, 2%Q)].

Definition utc_around_clock_change : list Z :=
  [1729983600; 1729987200; 1729990800; 1729994400].

(** * Properties *)

(** ** Lists *)

Lemma nth_error_flat_map_blocks {A B : Type} (f : A -> list B) (m : nat) :
  (forall a, List.length (f a) = m) ->
  forall (l : list A) (i j : nat) (a : A),
    nth_error l i = Some a -> (j < m)%nat ->
    nth_error (flat_map f l) (m * i + j) = nth_error (f a) j.
Proof.
  intros Hlen l.
  induction l as [|x l IH]; intros i j a Hi Hj.
  - destruct i; discriminate.
  - destruct i as [|i]; simpl in Hi.
    + injection Hi as ->. simpl.
      rewrite Nat.mul_0_r, Nat.add_0_l.
      apply nth_error_app1. rewrite Hlen. exact Hj.
    + simpl. rewrite nth_error_app2 by (rewrite Hlen; lia).
      rewrite Hlen.
      replace (m * S i + j - m)%nat with (m * i + j)%nat by lia.
      apply IH; assumption.
Qed.

Lemma length_flat_map_blocks {A B : Type} (f : A -> list B) (m : nat) :
  (forall a, List.length (f a) = m) ->
  forall l : list A, List.length (flat_map f l) = (m * List.length l)%nat.
Proof.
  intros Hlen l. induction l as [|x l IH]; simpl.
  - lia.
  - rewrite length_app, Hlen, IH. lia.
Qed.

Lemma index_combine {A : Type} (idx : list Z) (data : list A) :
  List.length idx = List.length data -> index (combine idx data) = idx.
Proof.
  revert data. induction idx as [|t idx IH]; intros [|d data] H; simpl in *;
    try reflexivity; try discriminate.
  f_equal. apply IH. lia.
Qed.

Lemma values_combine {A : Type} (idx : list Z) (data : list A) :
  List.length idx = List.length data -> values (combine idx data) = data.
Proof.
  revert data. induction idx as [|t idx IH]; intros [|d data] H; simpl in *;
    try reflexivity; try discriminate.
  f_equal. apply IH. lia.
Qed.

Lemma nth_error_combine {A B : Type} (l : list A) (l' : list B) (i : nat) (a : A) (b : B) :
  nth_error l i = Some a -> nth_error l' i = Some b ->
  nth_error (combine l l') i = Some (a, b).
Proof.
  revert l' i. induction l as [|x l IH]; intros [|y l'] [|i] Ha Hb;
    simpl in *; try discriminate.
  - congruence.
  - apply IH; assumption.
Qed.

Lemma mem_In (t : Z) (l : list Z) : mem t l = true <-> In t l.
Proof.
  induction l as [|x l IH]; simpl.
  - split; [discriminate | tauto].
  - rewrite orb_true_iff, Z.eqb_eq, IH. tauto.
Qed.

Lemma is_unique_NoDup (l : list Z) : is_unique l = true <-> NoDup l.
Proof.
  induction l as [|x l IH]; simpl.
  - split; [constructor | reflexivity].
  - rewrite andb_true_iff, negb_true_iff, IH. split.
    + intros [Hm Hn]. constructor; [|exact Hn].
      intro Hin. apply mem_In in Hin. congruence.
    + intro H. inversion H as [|? ? Hnin Hnd]; subst. split; [|exact Hnd].
      destruct (mem x l) eqn:E; [|reflexivity].
      apply mem_In in E. contradiction.
Qed.

(** ** The loop of the custom interpolation *)

Lemma length_block (se : Q * Q) : List.length (block se) = 12%nat.
Proof. reflexivity. Qed.

Lemma interpolation_loop (pairs : list (Q * Q)) (acc : list Q) :
  fold_left interpolation_step pairs acc = acc ++ flat_map block pairs.
Proof.
  revert acc. induction pairs as [|[s e] pairs IH]; intro acc; simpl.
  - now rewrite app_nil_r.
  - rewrite IH. unfold block at 2. simpl fst. simpl snd.
    now rewrite <- !app_assoc.
Qed.

Lemma consecutive_pairs_cons (v w : Q) (vs : list Q) :
  consecutive_pairs (v :: w :: vs) = (v, w) :: consecutive_pairs (w :: vs).
Proof. reflexivity. Qed.

Lemma length_consecutive_pairs (vs : list Q) :
  List.length (consecutive_pairs vs) = (List.length vs - 1)%nat.
Proof.
  induction vs as [|v vs IH]; [reflexivity|].
  destruct vs as [|w vs]; [reflexivity|].
  rewrite consecutive_pairs_cons. simpl List.length in *. lia.
Qed.

Lemma nth_error_consecutive_pairs (vs : list Q) (i : nat) (s e : Q) :
  nth_error vs i = Some s -> nth_error vs (S i) = Some e ->
  nth_error (consecutive_pairs vs) i = Some (s, e).
Proof.
  revert i. induction vs as [|v vs IH]; intros i Hs He.
  - destruct i; discriminate.
  - destruct vs as [|w vs].
    + destruct i as [|i]; simpl in He; [|destruct i]; discriminate.
    + rewrite consecutive_pairs_cons. destruct i as [|i].
      * simpl in *. congruence.
      * simpl. apply IH; assumption.
Qed.

(** The eleven values of a segment, by position. *)
Lemma nth_error_segment (s e : Q) (k : nat) :
  (1 <= k <= 11)%nat ->
  nth_error (interpolated_segment s e) (k - 1)
  = Some ((e - s) / 12 * inject_Z (Z.of_nat k) + s)%Q.
Proof.
  intros Hk. unfold interpolated_segment, arange_1_12.
  rewrite !nth_error_map.
  rewrite nth_error_seq.
  destruct (Nat.ltb_spec (k - 1) 11) as [_|]; [|lia].
  simpl. repeat f_equal. lia.
Qed.

(** ** The 5-minute labels *)

Lemma fold_min_le (l : list Z) (a : Z) : fold_left Z.min l a <= a.
Proof.
  revert a. induction l as [|x l IH]; intro a; simpl; [lia|].
  specialize (IH (Z.min a x)). lia.
Qed.

Lemma fold_max_ge (l : list Z) (a : Z) : a <= fold_left Z.max l a.
Proof.
  revert a. induction l as [|x l IH]; intro a; simpl; [lia|].
  specialize (IH (Z.max a x)). lia.
Qed.

Lemma fold_min_lower (l : list Z) (a : Z) :
  (forall x, In x l -> a <= x) -> fold_left Z.min l a = a.
Proof.
  revert a. induction l as [|x l IH]; intros a H; simpl; [reflexivity|].
  rewrite Z.min_l by (apply H; now left).
  apply IH. intros y Hy. apply H. now right.
Qed.

Lemma span5_multiple (idx : list Z) :
  exists k, 0 <= k /\ span5 idx = five_minutes * k
            /\ (idx <> [] -> List.length (resample_labels idx) = Z.to_nat (k + 1)).
Proof.
  destruct idx as [|t rest].
  - exists 0. repeat split; [lia | congruence].
  - pose proof (fold_min_le rest t) as Hmin.
    pose proof (fold_max_ge rest t) as Hmax.
    fold (minimum t rest) in Hmin. fold (maximum t rest) in Hmax.
    exists (maximum t rest / five_minutes - minimum t rest / five_minutes).
    assert (minimum t rest / five_minutes <= maximum t rest / five_minutes) as Hle
      by (apply Z.div_le_mono; unfold five_minutes; lia).
    assert (span5 (t :: rest)
            = five_minutes * (maximum t rest / five_minutes - minimum t rest / five_minutes))
      as Hspan by (unfold span5, floor5; lia).
    repeat split; [lia | exact Hspan |].
    intros _. unfold resample_labels, date_range.
    rewrite length_map, length_seq.
    change (floor5 (maximum t rest) - floor5 (minimum t rest)) with (span5 (t :: rest)).
    rewrite Hspan, Z.mul_comm, Z.div_mul by (unfold five_minutes; lia).
    reflexivity.
Qed.

(** The grid has the length of the interpolated data exactly when the
    bins of the earliest and the latest timestamp are [n - 1] hours
    apart. *)
Lemma labels_fit_iff (idx : list Z) :
  idx <> [] ->
  List.length (resample_labels idx) = (12 * (List.length idx - 1) + 1)%nat
  <-> span5 idx = one_hour * (Z.of_nat (List.length idx) - 1).
Proof.
  intros Hne.
  destruct (span5_multiple idx) as (k & Hk & Hspan & Hlen).
  rewrite (Hlen Hne), Hspan.
  assert (1 <= List.length idx)%nat
    by (destruct idx; [congruence | simpl; lia]).
  unfold five_minutes, one_hour. lia.
Qed.

Lemma length_insert_row {A : Type} (r : Z * A) (s : Series A) :
  List.length (insert_row r s) = S (List.length s).
Proof.
  induction s as [|r' s IH]; simpl; [reflexivity|].
  destruct (fst r' <=? fst r); simpl; congruence.
Qed.

Lemma length_sort_index {A : Type} (s : Series A) :
  List.length (sort_index s) = List.length s.
Proof.
  induction s as [|r s IH]; simpl; [reflexivity|].
  rewrite length_insert_row. congruence.
Qed.

(** On a series with distinct timestamps the resample succeeds, and its
    index is the grid. *)
Lemma resample_asfreq_index (s : Series Q) :
  is_unique (index s) = true ->
  exists r, resample_asfreq s = Ok r /\ index r = resample_labels (index s).
Proof.
  intros Hu. unfold resample_asfreq.
  destruct (inferred_5min (index (sort_index s))
            && Nat.eqb (List.length s) (List.length (resample_labels (index s)))) eqn:E.
  - eexists. split; [reflexivity|].
    apply andb_true_iff in E as [_ E]. apply Nat.eqb_eq in E.
    apply index_combine.
    unfold values. rewrite !length_map, length_sort_index. congruence.
  - rewrite Hu. eexists. split; [reflexivity|].
    unfold index. rewrite map_map. simpl. apply map_id.
Qed.

Lemma length_interpolated_data_of (vs : list Q) :
  vs <> [] ->
  List.length (interpolated_data_of vs) = (12 * (List.length vs - 1) + 1)%nat.
Proof.
  destruct vs as [|v vs]; [congruence|]. intros _.
  unfold interpolated_data_of. cbn [List.length].
  rewrite (length_flat_map_blocks block 12 length_block), length_consecutive_pairs.
  cbn [List.length]. lia.
Qed.

(** The two outcomes of the custom interpolation on a series with
    distinct timestamps. *)
Lemma custom_linear_cases (s : Series Q) :
  s <> [] ->
  is_unique (index s) = true ->
  (span5 (index s) = one_hour * (Z.of_nat (List.length s) - 1) ->
   custom_linear_interpolation s "linear"
   = Ok (Some (combine (resample_labels (index s)) (interpolated_data_of (values s)))))
  /\ (span5 (index s) <> one_hour * (Z.of_nat (List.length s) - 1) ->
      custom_linear_interpolation s "linear" = Raise ValueError).
Proof.
  intros Hne Hu.
  destruct (resample_asfreq_index s Hu) as (r & Hr & Hidx).
  assert (index s <> []) as Hine by (destruct s; [congruence | discriminate]).
  assert (values s <> []) as Hvne by (destruct s; [congruence | discriminate]).
  pose proof (labels_fit_iff (index s) Hine) as Hfit.
  pose proof (length_interpolated_data_of (values s) Hvne) as Hdata.
  assert (List.length (index s) = List.length s) as Li by apply length_map.
  assert (List.length (values s) = List.length s) as Lv by apply length_map.
  rewrite Li in Hfit. rewrite Lv in Hdata.
  unfold custom_linear_interpolation. rewrite Hr. cbn [bind].
  change (String.eqb "linear" "linear") with true. cbv iota.
  destruct (values s) as [|v0 vs] eqn:Ev; [congruence|].
  rewrite interpolation_loop. cbn [app].
  change (v0 :: flat_map block (consecutive_pairs (v0 :: vs)))
    with (interpolated_data_of (v0 :: vs)).
  unfold pd_Series. cbn [bind]. rewrite Hidx, Hdata.
  split; intro Hspan.
  - apply Hfit in Hspan.
    rewrite Hspan, Nat.eqb_refl. reflexivity.
  - destruct (Nat.eqb _ _) eqn:E; [|reflexivity].
    exfalso. apply Hspan, Hfit. apply Nat.eqb_eq in E. lia.
Qed.

(** ** Hourly series *)

Lemma all_spaced_nth (d : Z) (l : list Z) (t0 : Z) :
  all_spaced d (t0 :: l) = true ->
  forall i t, nth_error (t0 :: l) i = Some t -> t = t0 + d * Z.of_nat i.
Proof.
  revert t0. induction l as [|t1 l IH]; intros t0 H i t Hi.
  - destruct i as [|[|i]]; simpl in Hi; try discriminate.
    injection Hi as <-. lia.
  - cbn [all_spaced] in H. apply andb_true_iff in H as [Hd H].
    apply Z.eqb_eq in Hd.
    destruct i as [|i].
    + simpl in Hi. injection Hi as <-. lia.
    + change (nth_error (t0 :: t1 :: l) (S i)) with (nth_error (t1 :: l) i) in Hi.
      rewrite (IH t1 H i t Hi). lia.
Qed.

Lemma all_spaced_In (d : Z) (l : list Z) (t0 x : Z) :
  all_spaced d (t0 :: l) = true -> In x l ->
  exists i : nat, (1 <= i <= List.length l)%nat /\ x = t0 + d * Z.of_nat i.
Proof.
  intros H Hin. apply In_nth_error in Hin as [i Hi].
  exists (S i). split.
  - assert (i < List.length l)%nat by (apply nth_error_Some; congruence). lia.
  - apply (all_spaced_nth d l t0 H (S i) x). exact Hi.
Qed.

Lemma hourly_minimum (l : list Z) (t0 : Z) :
  all_spaced one_hour (t0 :: l) = true -> minimum t0 l = t0.
Proof.
  intros H. apply fold_min_lower. intros x Hx.
  destruct (all_spaced_In _ _ _ _ H Hx) as (i & _ & ->).
  unfold one_hour. lia.
Qed.

Lemma hourly_maximum (l : list Z) (t0 : Z) :
  all_spaced one_hour (t0 :: l) = true ->
  maximum t0 l = t0 + one_hour * Z.of_nat (List.length l).
Proof.
  revert t0. induction l as [|t1 l IH]; intros t0 H.
  - unfold maximum. simpl. lia.
  - cbn [all_spaced] in H. apply andb_true_iff in H as [Hd H].
    apply Z.eqb_eq in Hd.
    unfold maximum. cbn [fold_left].
    replace (Z.max t0 t1) with t1 by (unfold one_hour in Hd; lia).
    fold (maximum t1 l). rewrite (IH t1 H).
    cbn [List.length]. lia.
Qed.

Lemma floor5_add_hours (t m : Z) : floor5 (t + one_hour * m) = floor5 t + one_hour * m.
Proof.
  unfold floor5, one_hour, five_minutes.
  replace (t + 3600 * m) with (t + (12 * m) * 300) by lia.
  rewrite Z.div_add by lia. lia.
Qed.

Lemma hourly_span5 (idx : list Z) :
  all_spaced one_hour idx = true ->
  idx <> [] ->
  span5 idx = one_hour * (Z.of_nat (List.length idx) - 1).
Proof.
  intros H Hne. destruct idx as [|t0 l]; [congruence|].
  unfold span5. rewrite (hourly_minimum l t0 H), (hourly_maximum l t0 H).
  rewrite floor5_add_hours. cbn [List.length]. lia.
Qed.

Lemma hourly_is_unique (idx : list Z) :
  all_spaced one_hour idx = true -> is_unique idx = true.
Proof.
  induction idx as [|t0 l IH]; intro H; [reflexivity|].
  cbn [is_unique]. apply andb_true_iff. split.
  - apply negb_true_iff. destruct (mem t0 l) eqn:E; [|reflexivity].
    apply mem_In in E.
    destruct (all_spaced_In _ _ _ _ H E) as (i & Hi & Hx).
    unfold one_hour in Hx. lia.
  - apply IH. destruct l as [|t1 l]; [reflexivity|].
    cbn [all_spaced] in H. now apply andb_true_iff in H as [_ H].
Qed.

(** The labels of an hourly series, by position. *)
Lemma nth_error_hourly_labels (l : list Z) (t0 : Z) (j : nat) :
  all_spaced one_hour (t0 :: l) = true ->
  (j < 12 * List.length l + 1)%nat ->
  nth_error (resample_labels (t0 :: l)) j = Some (floor5 t0 + five_minutes * Z.of_nat j).
Proof.
  intros H Hj. unfold resample_labels, date_range.
  rewrite (hourly_minimum l t0 H), (hourly_maximum l t0 H), floor5_add_hours.
  replace (floor5 t0 + one_hour * Z.of_nat (List.length l) - floor5 t0)
    with (12 * Z.of_nat (List.length l) * five_minutes)
    by (unfold one_hour, five_minutes; lia).
  rewrite Z.div_mul by (unfold five_minutes; lia).
  rewrite nth_error_map, nth_error_seq.
  destruct (Nat.ltb_spec j (Z.to_nat (12 * Z.of_nat (List.length l) + 1))) as [_|]; [|lia].
  reflexivity.
Qed.

(** ** The interpolated data, by position *)

Lemma nth_error_data_between (vs : list Q) (i k : nat) (s e : Q) :
  nth_error vs i = Some s -> nth_error vs (S i) = Some e ->
  (1 <= k <= 11)%nat ->
  nth_error (interpolated_data_of vs) (12 * i + k)
  = Some ((e - s) / 12 * inject_Z (Z.of_nat k) + s)%Q.
Proof.
  intros Hs He Hk.
  destruct vs as [|v0 vs]; [destruct i; discriminate|].
  unfold interpolated_data_of.
  replace (12 * i + k)%nat with (S (12 * i + (k - 1)))%nat by lia.
  cbn [nth_error].
  rewrite (nth_error_flat_map_blocks block 12 length_block _ i (k - 1) (s, e))
    by (try apply nth_error_consecutive_pairs; try assumption; lia).
  unfold block. cbn [fst snd].
  rewrite nth_error_app1 by (unfold interpolated_segment, arange_1_12;
                             rewrite !length_map, length_seq; lia).
  now apply nth_error_segment.
Qed.

Lemma nth_error_data_sample (vs : list Q) (i : nat) (v : Q) :
  nth_error vs i = Some v ->
  nth_error (interpolated_data_of vs) (12 * i) = Some v.
Proof.
  intros Hv.
  destruct vs as [|v0 vs]; [destruct i; discriminate|].
  unfold interpolated_data_of.
  destruct i as [|i].
  - simpl in *. exact Hv.
  - assert (i < List.length (v0 :: vs))%nat as Hlt.
    { assert (S i < List.length (v0 :: vs))%nat by (apply nth_error_Some; congruence). lia. }
    destruct (nth_error (v0 :: vs) i) as [s|] eqn:Es;
      [|apply nth_error_None in Es; lia].
    replace (12 * S i)%nat with (S (12 * i + 11))%nat by lia.
    cbn [nth_error].
    rewrite (nth_error_flat_map_blocks block 12 length_block _ i 11 (s, v))
      by (try apply nth_error_consecutive_pairs; try assumption; lia).
    reflexivity.
Qed.

(** ** Looking a label up *)

Lemma loc_nth_error {A : Type} (r : Series A) (j : nat) (t : Z) (a : A) :
  nth_error r j = Some (t, a) ->
  (forall j' t' a', (j' < j)%nat -> nth_error r j' = Some (t', a') -> t' <> t) ->
  loc r t = Some a.
Proof.
  revert j. induction r as [|[t0 a0] r IH]; intros j Hj Hfirst.
  - destruct j; discriminate.
  - destruct j as [|j]; cbn [loc].
    + simpl in Hj. injection Hj as -> ->. now rewrite Z.eqb_refl.
    + destruct (Z.eqb_spec t0 t) as [->|_].
      * exfalso. apply (Hfirst 0%nat t a0); [lia | reflexivity | reflexivity].
      * apply (IH j); [exact Hj|].
        intros j' t' a' Hlt Hn. apply (Hfirst (S j') t' a'); [lia | exact Hn].
Qed.


Lemma loc_not_in {A : Type} (r : Series A) (t : Z) :
  ~ In t (index r) -> loc r t = None.
Proof.
  induction r as [|[t0 a0] r IH]; intro H; [reflexivity|].
  cbn [loc]. destruct (Z.eqb_spec t0 t) as [->|_].
  - exfalso. apply H. now left.
  - apply IH. intro Hin. apply H. now right.
Qed.

Lemma nth_error_combine_inv {A B : Type} (l : list A) (l' : list B) (i : nat) (a : A) (b : B) :
  nth_error (combine l l') i = Some (a, b) ->
  nth_error l i = Some a /\ nth_error l' i = Some b.
Proof.
  revert l' i. induction l as [|x l IH]; intros [|y l'] [|i] H;
    simpl in *; try discriminate.
  - injection H as -> ->. split; reflexivity.
  - apply IH. exact H.
Qed.

(** ** The custom interpolation on an hourly series *)

Lemma custom_hourly (s : Series Q) :
  s <> [] ->
  all_spaced one_hour (index s) = true ->
  custom_linear_interpolation s "linear"
  = Ok (Some (combine (resample_labels (index s)) (interpolated_data_of (values s)))).
Proof.
  intros Hne H.
  apply (custom_linear_cases s Hne (hourly_is_unique _ H)).
  rewrite <- (length_map fst s). apply hourly_span5; [exact H|].
  destruct s; [congruence | discriminate].
Qed.

(** Row [j] of the result on an hourly series that starts at [t0]. *)
Lemma hourly_row (s : Series Q) (t0 : Z) (l : list Z) (j : nat) (d : Q) :
  index s = t0 :: l ->
  all_spaced one_hour (index s) = true ->
  nth_error (interpolated_data_of (values s)) j = Some d ->
  let r := combine (resample_labels (index s)) (interpolated_data_of (values s)) in
  nth_error r j = Some (floor5 t0 + five_minutes * Z.of_nat j, d)
  /\ loc r (floor5 t0 + five_minutes * Z.of_nat j) = Some d.
Proof.
  intros Hidx H Hd r.
  assert (List.length (interpolated_data_of (values s)) = (12 * List.length l + 1)%nat) as Hlen.
  { rewrite length_interpolated_data_of.
    - unfold values. rewrite length_map, <- (length_map fst s).
      fold (index s). rewrite Hidx. cbn [List.length]. lia.
    - destruct s; [discriminate | discriminate]. }
  assert (j < 12 * List.length l + 1)%nat as Hj
    by (rewrite <- Hlen; apply nth_error_Some; congruence).
  rewrite Hidx in H.
  assert (nth_error r j = Some (floor5 t0 + five_minutes * Z.of_nat j, d)) as Hrow.
  { unfold r. apply nth_error_combine; [|exact Hd].
    rewrite Hidx. now apply nth_error_hourly_labels. }
  split; [exact Hrow|].
  apply (loc_nth_error r j); [exact Hrow|].
  intros j' t' a' Hlt Hn. unfold r in Hn.
  apply nth_error_combine_inv in Hn as [Hn _].
  rewrite Hidx, nth_error_hourly_labels in Hn by (assumption || lia).
  assert (t' = floor5 t0 + five_minutes * Z.of_nat j') as -> by congruence.
  unfold five_minutes. lia.
Qed.

Lemma floor5_aligned (t : Z) : t mod five_minutes = 0 -> floor5 t = t.
Proof.
  intros H. unfold floor5.
  pose proof (Z.div_mod t five_minutes) as E.
  unfold five_minutes in *. lia.
Qed.

(** C1 (as amended).  On a series of at least two points spaced exactly
    one hour apart, the custom linear interpolation returns a series of
    [12 * (n - 1) + 1] rows on the 5-minute grid.  Row [12 * i] carries
    the left edge of the 5-minute bin of sample [i] and holds that sample
    exactly; the rows [12 * i + k], [k = 1 .. 11], hold
    [s + k * (e - s) / 12] for the pair [(s, e)] of samples [i] and
    [i + 1].  Looking up a sample's own timestamp gives the sample when
    that timestamp is 5-minute aligned. *)
Theorem custom_linear_interpolation_hourly (s : Series Q) :
  (2 <= List.length s)%nat ->
  all_spaced one_hour (index s) = true ->
  exists r,
    custom_linear_interpolation s "linear" = Ok (Some r)
    /\ List.length r = (12 * (List.length s - 1) + 1)%nat
    /\ (forall i t v,
           nth_error s i = Some (t, v) ->
           nth_error r (12 * i) = Some (floor5 t, v)
           /\ loc r (floor5 t) = Some v
           /\ (t mod five_minutes = 0 -> loc r t = Some v))
    /\ (forall i t v0 t' v1 k,
           nth_error s i = Some (t, v0) ->
           nth_error s (S i) = Some (t', v1) ->
           (1 <= k <= 11)%nat ->
           exists q,
             nth_error r (12 * i + k) = Some (floor5 t + five_minutes * Z.of_nat k, q)
             /\ loc r (floor5 t + five_minutes * Z.of_nat k) = Some q
             /\ (q == v0 + inject_Z (Z.of_nat k) * (v1 - v0) / 12)%Q).
Proof.
  intros Hn H.
  assert (s <> []) as Hne by (destruct s; [simpl in Hn; lia | discriminate]).
  exists (combine (resample_labels (index s)) (interpolated_data_of (values s))).
  split; [now apply custom_hourly|].
  destruct (index s) as [|t0 l] eqn:Hidx; [destruct s; [congruence | discriminate]|].
  assert (forall i t v, nth_error s i = Some (t, v) ->
                        nth_error (values s) i = Some v
                        /\ floor5 t = floor5 t0 + five_minutes * Z.of_nat (12 * i)) as Hsample.
  { intros i t v Hi. split.
    - unfold values. rewrite nth_error_map, Hi. reflexivity.
    - assert (nth_error (t0 :: l) i = Some t) as Ht
        by (rewrite <- Hidx; unfold index; rewrite nth_error_map, Hi; reflexivity).
      rewrite (all_spaced_nth _ _ _ H i t Ht), floor5_add_hours.
      unfold one_hour, five_minutes. lia. }
  split; [|split].
  - rewrite length_combine, length_interpolated_data_of
      by (destruct s; [congruence | discriminate]).
    assert (List.length (resample_labels (t0 :: l)) = (12 * (List.length (t0 :: l) - 1) + 1)%nat)
      as HL by (apply labels_fit_iff; [discriminate | apply hourly_span5; [exact H | discriminate]]).
    rewrite HL, <- Hidx. unfold index, values. rewrite !length_map. lia.
  - intros i t v Hi.
    destruct (Hsample i t v Hi) as [Hv Ht].
    pose proof (nth_error_data_sample _ _ _ Hv) as Hd.
    destruct (hourly_row s t0 l (12 * i) v Hidx
                (eq_ind_r (fun x => all_spaced one_hour x = true) H Hidx) Hd) as [Hrow Hloc].
    rewrite Hidx in Hrow, Hloc. rewrite Ht.
    split; [exact Hrow | split; [exact Hloc|]].
    intro Ha. rewrite <- (floor5_aligned t Ha), Ht. exact Hloc.
  - intros i t v0 t' v1 k Hi Hi' Hk.
    destruct (Hsample i t v0 Hi) as [Hv Ht].
    destruct (Hsample (S i) t' v1 Hi') as [Hv' _].
    pose proof (nth_error_data_between _ _ _ _ _ Hv Hv' Hk) as Hd.
    destruct (hourly_row s t0 l (12 * i + k) _ Hidx
                (eq_ind_r (fun x => all_spaced one_hour x = true) H Hidx) Hd) as [Hrow Hloc].
    rewrite Hidx in Hrow, Hloc.
    replace (floor5 t + five_minutes * Z.of_nat k)
      with (floor5 t0 + five_minutes * Z.of_nat (12 * i + k)) by (rewrite Ht; lia).
    eexists. split; [exact Hrow | split; [exact Hloc|]].
    field.
Qed.

Lemma custom_linear_interpolation_hourly_witness :
  exists r,
    custom_linear_interpolation series_hourly "linear" = Ok (Some r)
    /\ List.length r = 25%nat.
Proof.
  destruct (custom_linear_interpolation_hourly series_hourly)
    as (r & Hr & Hlen & _).
  - simpl. lia.
  - reflexivity.
  - exists r. split; [exact Hr | exact Hlen].
Defined.

(** C1, the claim as stated: an hourly series that is not 5-minute
    aligned (00:02:00 and 01:02:00) comes back on the labels 00:00:00 to
    01:00:00, so the result has no value at either sample's own
    timestamp. *)
Lemma custom_linear_interpolation_unaligned :
  (2 <= List.length series_unaligned)%nat
  /\ all_spaced one_hour (index series_unaligned) = true
  /\ exists r,
      custom_linear_interpolation series_unaligned "linear" = Ok (Some r)
      /\ index r = [0; 300; 600; 900; 1200; 1500; 1800; 2100; 2400; 2700; 3000; 3300; 3600]
      /\ loc r 120 = None
      /\ loc r 3720 = None.
Proof.
  split; [simpl; lia|]. split; [reflexivity|].
  eexists. split; [vm_compute; reflexivity|].
  repeat split.
Qed.

(** ** Fewer than two points *)

(** C2 (as amended).  On the empty series the custom linear
    interpolation raises (IndexError, at [series.values[0]]); on a series
    of one point it raises nothing and returns a series of one row, the
    point itself under the left edge of its 5-minute bin. *)
Theorem custom_linear_interpolation_short :
  custom_linear_interpolation [] "linear" = Raise IndexError
  /\ forall t v, custom_linear_interpolation [(t, v)] "linear" = Ok (Some [(floor5 t, v)]).
Proof.
  split; [reflexivity|].
  intros t v.
  unfold custom_linear_interpolation, resample_asfreq.
  cbn [sort_index insert_row index values map fst snd inferred_5min List.length
       Nat.leb andb is_unique mem negb resample_labels minimum maximum fold_left].
  unfold date_range. rewrite Z.sub_diag.
  change (Z.to_nat (0 / five_minutes + 1)) with 1%nat.
  cbn [seq map bind index fst].
  change (five_minutes * Z.of_nat 0) with 0. rewrite Z.add_0_r.
  reflexivity.
Qed.

(** C2, the claim as stated: a series of one point is below two points,
    and the call returns a series instead of raising. *)
Lemma custom_linear_interpolation_one_point :
  (List.length series_one_point < 2)%nat
  /\ custom_linear_interpolation series_one_point "linear" = Ok (Some [(0, 5%Q)]).
Proof. split; [simpl; lia | reflexivity]. Qed.

(** ** Any spacing *)

(** C3 (as amended).  On a series of at least two points with distinct
    timestamps the custom linear interpolation returns exactly when the
    5-minute bins of the earliest and the latest timestamp are [n - 1]
    hours apart, so that the grid has the [12 * (n - 1) + 1] labels the
    data needs.  The result then pairs the grid, which comes from the
    timestamps alone, with the data, which comes from the values alone,
    position by position.  In every other case the call raises
    (ValueError, the lengths of data and index differ). *)
Theorem custom_linear_interpolation_any_spacing (s : Series Q) :
  (2 <= List.length s)%nat ->
  is_unique (index s) = true ->
  (span5 (index s) = one_hour * (Z.of_nat (List.length s) - 1) ->
   exists r,
     custom_linear_interpolation s "linear" = Ok (Some r)
     /\ index r = resample_labels (index s)
     /\ values r = interpolated_data_of (values s))
  /\ (span5 (index s) <> one_hour * (Z.of_nat (List.length s) - 1) ->
      custom_linear_interpolation s "linear" = Raise ValueError).
Proof.
  intros Hn Hu.
  assert (s <> []) as Hne by (destruct s; [simpl in Hn; lia | discriminate]).
  destruct (custom_linear_cases s Hne Hu) as [Hfit Hmis].
  split; [|exact Hmis].
  intros Hspan. eexists. split; [exact (Hfit Hspan)|].
  assert (List.length (resample_labels (index s))
          = List.length (interpolated_data_of (values s))) as Hlen.
  { rewrite length_interpolated_data_of by (destruct s; [congruence | discriminate]).
    assert (index s <> []) as Hine by (destruct s; [congruence | discriminate]).
    rewrite (proj2 (labels_fit_iff (index s) Hine)).
    - unfold index, values. now rewrite !length_map.
    - unfold index at 2. rewrite length_map. exact Hspan. }
  split; [now apply index_combine | now apply values_combine].
Qed.

Lemma custom_linear_interpolation_any_spacing_witness :
  exists r,
    custom_linear_interpolation series_uneven "linear" = Ok (Some r)
    /\ index r = resample_labels (index series_uneven)
    /\ values r = interpolated_data_of (values series_uneven).
Proof.
  apply (custom_linear_interpolation_any_spacing series_uneven).
  - simpl. lia.
  - reflexivity.
  - reflexivity.
Defined.

(** The sample taken at 00:30:00 sits at 01:00:00 in that result. *)
Example misaligned_sample :
  exists r,
    custom_linear_interpolation series_uneven "linear" = Ok (Some r)
    /\ loc r 3600 = Some 12%Q
    /\ loc r 1800 = Some (72 # 12)%Q.
Proof. eexists. split; [vm_compute; reflexivity | split; reflexivity]. Qed.

(** C3, the claim as stated: two points two hours apart are not hourly,
    and the call raises instead of returning a series. *)
Lemma custom_linear_interpolation_two_hours :
  (2 <= List.length series_two_hours)%nat
  /\ all_spaced one_hour (index series_two_hours) = false
  /\ custom_linear_interpolation series_two_hours "linear" = Raise ValueError.
Proof. split; [simpl; lia | split; reflexivity]. Qed.

(** ** Another interpolation type *)

(** C10 (as amended).  With an interpolation type other than "linear"
    the custom interpolation returns [None] and raises nothing, on every
    series whose timestamps are distinct. *)
Theorem custom_linear_interpolation_other_type (s : Series Q) (interpolation_type : string) :
  interpolation_type <> "linear"%string ->
  is_unique (index s) = true ->
  custom_linear_interpolation s interpolation_type = Ok None.
Proof.
  intros Hty Hu.
  destruct (resample_asfreq_index s Hu) as (r & Hr & _).
  unfold custom_linear_interpolation. rewrite Hr. cbn [bind].
  destruct (String.eqb_spec interpolation_type "linear") as [E|_]; [contradiction|].
  reflexivity.
Qed.

Lemma custom_linear_interpolation_other_type_witness :
  custom_linear_interpolation [(0, 1%Q); (3600, 2%Q)] "cubic" = Ok None.
Proof.
  apply custom_linear_interpolation_other_type.
  - discriminate.
  - reflexivity.
Defined.

(** C10, the claim as stated: the resample of line 142 runs before the
    type is looked at, and it raises on a series with a repeated
    timestamp. *)
Lemma custom_linear_interpolation_other_type_duplicate :
  "cubic"%string <> "linear"%string
  /\ custom_linear_interpolation series_duplicate "cubic" = Raise ValueError.
Proof. split; [discriminate | reflexivity]. Qed.

(** ** The library interpolation on an hourly series *)


Lemma seq_add_map (a m : nat) : seq a m = map (fun k => (a + k)%nat) (seq 0 m).
Proof.
  revert a. induction m as [|m IH]; intro a; [reflexivity|].
  cbn [seq map]. f_equal; [lia|].
  rewrite (IH (S a)), (IH 1%nat), map_map.
  apply map_ext. intro k. lia.
Qed.











(** ** The merge *)

Lemma loc_mask_cons {A : Type} (r : Z * A) (s : Series A) (b : bool) (mask : list bool) :
  loc_mask (r :: s) (b :: mask) = if b then r :: loc_mask s mask else loc_mask s mask.
Proof. unfold loc_mask. cbn [combine filter snd]. now destruct b. Qed.

(** What [df.loc[~df.index.duplicated(keep="first")]] keeps of [df],
    given the labels [seen] before it. *)
Lemma keep_first_from {A : Type} (df : Series A) (seen : list Z) :
  let kept := loc_mask df (map negb (duplicated_from seen (index df))) in
  NoDup (index kept)
  /\ (forall t, In t (index kept) <-> In t (index df) /\ ~ In t seen)
  /\ (forall t, loc kept t = if mem t seen then None else loc df t).
Proof.
  revert seen. induction df as [|[t0 r0] df IH]; intro seen; cbn zeta.
  - cbn. repeat split; try tauto; try constructor.
    intro t. now destruct (mem t seen).
  - cbn [index map fst duplicated_from]. fold (index df).
    rewrite loc_mask_cons.
    destruct (IH (t0 :: seen)) as (Hnd & Hin & Hloc). cbn zeta in Hnd, Hin, Hloc.
    destruct (mem t0 seen) eqn:E; cbn [negb].
    + apply mem_In in E. split; [exact Hnd|]. split.
      * intro t. rewrite Hin. cbn [In]. split.
        -- intros [H1 H2]. split; [now right|]. intro H. apply H2. now right.
        -- intros [[<-|H1] H2]; [contradiction|]. split; [exact H1|].
           intros [<-|H]; contradiction.
      * intro t. rewrite Hloc. cbn [mem loc].
        destruct (Z.eqb_spec t0 t) as [<-|Hne]; cbn [orb].
        -- apply mem_In in E. now rewrite E.
        -- reflexivity.
    + assert (~ In t0 seen) as Hn by (intro H; apply mem_In in H; congruence).
      cbn [index map fst]. fold (index (loc_mask df (map negb (duplicated_from (t0 :: seen) (index df))))).
      split; [|split].
      * constructor; [|exact Hnd]. rewrite Hin. intros [_ H]. apply H. now left.
      * intro t. cbn [In]. rewrite Hin. cbn [In]. split.
        -- intros [<-|[H1 H2]]; [tauto|]. split; [now right|]. tauto.
        -- intros [[<-|H1] H2]; [now left|].
           destruct (Z.eq_dec t0 t) as [<-|Hne]; [now left|]. right. tauto.
      * intro t. cbn [loc mem]. rewrite Hloc. cbn [mem].
        destruct (Z.eqb_spec t0 t) as [<-|Hne]; cbn [orb].
        -- now rewrite E.
        -- reflexivity.
Qed.

Lemma loc_app {A : Type} (a b : Series A) (t : Z) :
  loc (a ++ b) t = match loc a t with Some r => Some r | None => loc b t end.
Proof.
  induction a as [|[t0 r0] a IH]; [reflexivity|].
  cbn [app loc]. now destruct (t0 =? t).
Qed.

Lemma loc_in {A : Type} (s : Series A) (t : Z) :
  In t (index s) -> exists r, loc s t = Some r.
Proof.
  induction s as [|[t0 r0] s IH]; [contradiction|].
  cbn [index map fst In loc]. intros [<-|H].
  - rewrite Z.eqb_refl. eauto.
  - destruct (t0 =? t); eauto.
Qed.

(** C5.  The merged table has every timestamp of either table and none
    twice.  At a timestamp of the historical table its row is the
    historical one (the first, should the historical table itself repeat
    the timestamp), whatever the forecast table holds there; at any other
    timestamp it is the forecast row. *)
Theorem all_weather_first_wins {R : Type} (historical_weather forecast_weather : DataFrame R) :
  let merged := all_weather historical_weather forecast_weather in
  NoDup (index merged)
  /\ (forall t, In t (index merged)
                <-> In t (index historical_weather) \/ In t (index forecast_weather))
  /\ (forall t, In t (index historical_weather) ->
                row_at merged t = row_at historical_weather t
                /\ row_at merged t <> None)
  /\ (forall t, ~ In t (index historical_weather) ->
                row_at merged t = row_at forecast_weather t).
Proof.
  cbn zeta. unfold all_weather, duplicated, pd_concat, row_at.
  destruct (keep_first_from (historical_weather ++ forecast_weather) [])
    as (Hnd & Hin & Hloc). cbn zeta in Hnd, Hin, Hloc.
  split; [exact Hnd|]. split; [|split].
  - intro t. rewrite Hin. unfold index. rewrite map_app, in_app_iff. cbn [In]. tauto.
  - intros t Ht. rewrite Hloc. cbn [mem]. rewrite loc_app.
    destruct (loc_in _ _ Ht) as [r ->]. split; [reflexivity | discriminate].
  - intros t Ht. rewrite Hloc. cbn [mem]. rewrite loc_app.
    now rewrite (loc_not_in _ _ Ht).
Qed.

Lemma all_weather_first_wins_witness :
  row_at (all_weather [(0, 1%Q); (3600, 2%Q)] [(3600, 9%Q); (7200, 3%Q)]) 3600 = Some 2%Q
  /\ index (all_weather [(0, 1%Q); (3600, 2%Q)] [(3600, 9%Q); (7200, 3%Q)]) = [0; 3600; 7200].
Proof.
  destruct (all_weather_first_wins [(0, 1%Q); (3600, 2%Q)] [(3600, 9%Q); (7200, 3%Q)])
    as (_ & _ & Hfirst & _).
  destruct (Hfirst 3600) as [Hrow _].
  - simpl. auto.
  - split; [rewrite Hrow; reflexivity | reflexivity].
Defined.

(** ** The time-zone normalisation *)

Lemma vilnius_utcoffset_cases (u : Z) :
  vilnius_utcoffset u = EEST \/ vilnius_utcoffset u = EET.
Proof.
  unfold vilnius_utcoffset.
  destruct (_ && _); [now left | now right].
Qed.


Lemma to_utc_outside_repeated_hour (u : Z) :
  in_repeated_hour u = false -> to_utc (to_naive_local u) = Ok u.
Proof.
  unfold to_utc, to_naive_local, in_repeated_hour. cbn [filter].
  destruct (vilnius_utcoffset_cases u) as [E | E]; rewrite E.
  - replace (u + EEST - EEST) with u by lia.
    replace (u + EEST - EET) with (u + one_hour) by (unfold EEST, EET, one_hour; lia).
    rewrite E.
    change (EEST =? EEST) with true. change (EEST =? EET) with false.
    cbn [andb orb]. rewrite orb_false_r. intros ->. f_equal. lia.
  - replace (u + EET - EET) with u by lia.
    replace (u + EET - EEST) with (u - one_hour) by (unfold EEST, EET, one_hour; lia).
    rewrite E.
    change (EET =? EET) with true. change (EET =? EEST) with false.
    cbn [andb orb]. intros ->. f_equal. lia.
Qed.

(** The round trip of a whole index, in the same terms. *)
Corollary normalize_index_round_trip (utc : list Z) :
  forallb (fun u => negb (in_repeated_hour u)) utc = true ->
  map to_utc (normalize_index utc) = map Ok utc.
Proof.
  intros H. unfold normalize_index. rewrite map_map.
  apply map_ext_in. intros u Hu.
  rewrite forallb_forall in H. specialize (H u Hu).
  apply to_utc_outside_repeated_hour. now apply negb_true_iff.
Qed.

(** Within one day the offset is given by the year of that day. *)
Lemma vilnius_utcoffset_in_day (u d : Z) :
  d * one_day <= u < (d + 1) * one_day ->
  vilnius_utcoffset u
  = if (summer_time_start (year_of_day d) <=? u) && (u <? summer_time_end (year_of_day d))
    then EEST else EET.
Proof.
  intros H. unfold vilnius_utcoffset.
  replace (u / one_day) with d; [reflexivity|].
  apply (Z.div_unique u one_day d (u - d * one_day)); unfold one_day in *; lia.
Qed.

(** In 2024 summer time ended on 27 October at 01:00:00 UTC. *)
Example summer_time_end_2024 : summer_time_end 2024 = 1729990800.
Proof. reflexivity. Qed.

(** The repeated hour of 2024: the two UTC hours from 00:00:00 to
    02:00:00 of 27 October, both shown as 03:00:00 to 04:00:00. *)
Example repeated_hour_2024 (u : Z) :
  1729987200 <= u < 1729994400 -> in_repeated_hour u = true.
Proof.
  intros H. unfold in_repeated_hour.
  rewrite (vilnius_utcoffset_in_day u 20023) by (unfold one_day; lia).
  change (year_of_day 20023) with 2024.
  change (summer_time_start 2024) with 1711846800.
  change (summer_time_end 2024) with 1729990800.
  destruct (Z.ltb_spec u 1729990800) as [Hlt|Hge].
  - rewrite (vilnius_utcoffset_in_day (u + one_hour) 20023) by (unfold one_day, one_hour; lia).
    change (year_of_day 20023) with 2024.
    change (summer_time_start 2024) with 1711846800.
    change (summer_time_end 2024) with 1729990800.
    destruct (Z.leb_spec 1711846800 u); [|lia].
    destruct (Z.ltb_spec (u + one_hour) 1729990800); [unfold one_hour in *; lia|].
    rewrite andb_false_r. reflexivity.
  - rewrite (vilnius_utcoffset_in_day (u - one_hour) 20023) by (unfold one_day, one_hour; lia).
    change (year_of_day 20023) with 2024.
    change (summer_time_start 2024) with 1711846800.
    change (summer_time_end 2024) with 1729990800.
    destruct (Z.leb_spec 1711846800 (u - one_hour)); [|unfold one_hour in *; lia].
    destruct (Z.ltb_spec (u - one_hour) 1729990800); [|unfold one_hour in *; lia].
    rewrite andb_false_r. reflexivity.
Qed.

(** Outside it, for instance at the start of summer time (31 March 2024,
    01:00:00 UTC), the round trip holds. *)
Example round_trip_examples :
  map to_utc (normalize_index [1711843200; 1711846800; 1711850400; 1704535200])
  = map Ok [1711843200; 1711846800; 1711850400; 1704535200].
Proof. apply normalize_index_round_trip. vm_compute. reflexivity. Qed.


(** ** Day and night *)




(** ** Fetching *)

(** A fetch that fails returns [None], and the loop stops there. *)
Lemma fetch_days_failure (req_get : url -> response) (historical_url : string)
      (days : nat) (current_date : Z) (weather_records : list record) (w : world) :
  fst (fetch_data req_get (Url historical_url current_date) w) = None ->
  fetch_days req_get historical_url (S days) current_date weather_records w
  = (Raise TypeError, snd (fetch_data req_get (Url historical_url current_date) w)).
Proof.
  intros H. cbn [fetch_days].
  destruct (fetch_data req_get (Url historical_url current_date) w) as [fetched w'].
  cbn [fst snd] in *. now rewrite H.
Qed.

Lemma fetch_data_failure (req_get : url -> response) (u : url) (w : world) :
  (exists error, req_get u = Failed error)
  \/ (exists status_code body, req_get u = Response status_code body /\ status_code <> 200) ->
  fst (fetch_data req_get u w) = None
  /\ List.length (printed (snd (fetch_data req_get u w))) = S (List.length (printed w)).
Proof.
  unfold fetch_data.
  intros [[error ->] | (status_code & body & -> & Hs)].
  - split; reflexivity.
  - destruct (Z.eqb_spec status_code 200) as [|_]; [contradiction|].
    split; reflexivity.
Qed.

(** C9, on the code.  The load of three days, 2024-01-06 to 2024-01-08,
    when the second day answers with status 500 or cannot be reached:
    the failure is printed at the fetch, the fetch returns [None], and
    subscripting it raises TypeError out of the loop.  The third day is
    never requested and the records of the first day are lost with the
    exception. *)
Theorem load_historical_aborts_on_failed_fetch :
  load_historical_records (status_500_on 19729) station_url 19728 19731 silent
  = (Raise TypeError,
     World ["Failed to fetch data. HTTP status: 500"%string]
           [Url station_url 19729; Url station_url 19728])
  /\ load_historical_records (unreachable_on 19729) station_url 19728 19731 silent
     = (Raise TypeError,
        World ["Error fetching data: timed out"%string]
              [Url station_url 19729; Url station_url 19728]).
Proof. split; vm_compute; reflexivity. Qed.

(** With every day answering, the same load returns the records of the
    three days. *)
Example load_historical_three_days :
  fst (load_historical_records (status_500_on 0) station_url 19728 19731 silent)
  = Ok [Record_ (19728 * one_day) (CStr "clear");
        Record_ (19729 * one_day) (CStr "clear");
        Record_ (19730 * one_day) (CStr "clear")].
Proof. vm_compute. reflexivity. Qed.

(** ** Substrings *)




(** ** Sorted labels *)

Lemma insert_label_In (t x : Z) (l : list Z) :
  In x (insert_label t l) <-> x = t \/ In x l.
Proof.
  induction l as [|t' l IH]; cbn [insert_label In].
  - intuition.
  - destruct (t <? t'); [cbn [In]; intuition|].
    destruct (Z.eqb_spec t t') as [->|_]; cbn [In]; [intuition|].
    rewrite IH. intuition.
Qed.

Lemma sorted_labels_In (x : Z) (l : list Z) : In x (sorted_labels l) <-> In x l.
Proof.
  induction l as [|t l IH]; cbn [sorted_labels In]; [tauto|].
  rewrite insert_label_In, IH. intuition.
Qed.

Lemma increasing_from_weaken (lo lo' : Z) (l : list Z) :
  lo' <= lo -> increasing_from lo l -> increasing_from lo' l.
Proof. destruct l; cbn; [tauto | intros ? []; split; [lia | assumption]]. Qed.

Lemma increasing_from_above (lo x : Z) (l : list Z) :
  increasing_from lo l -> In x l -> lo < x.
Proof.
  revert lo. induction l as [|t l IH]; intros lo H Hin; [contradiction|].
  destruct H as [H1 H2]. destruct Hin as [<-|Hin]; [exact H1|].
  specialize (IH t H2 Hin). lia.
Qed.

Lemma insert_label_increasing_from (lo t : Z) (l : list Z) :
  lo < t -> increasing_from lo l -> increasing_from lo (insert_label t l).
Proof.
  revert lo. induction l as [|t' l IH]; intros lo Hlo H; cbn [insert_label].
  - cbn. tauto.
  - destruct H as [H1 H2].
    destruct (Z.ltb_spec t t').
    + cbn. repeat split; assumption || lia.
    + destruct (Z.eqb_spec t t').
      * cbn. tauto.
      * cbn [increasing_from]. split; [exact H1|]. apply IH; [lia | exact H2].
Qed.

Lemma sorted_labels_increasing (l : list Z) : increasing (sorted_labels l).
Proof.
  induction l as [|t l IH]; cbn [sorted_labels]; [exact I|].
  destruct (sorted_labels l) as [|t' l']; [exact I|].
  cbn [insert_label increasing] in *.
  destruct (Z.ltb_spec t t').
  - cbn. split; [assumption|exact IH].
  - destruct (Z.eqb_spec t t'); [exact IH|].
    cbn [increasing]. apply insert_label_increasing_from; [lia | exact IH].
Qed.

Lemma increasing_from_NoDup (lo : Z) (l : list Z) : increasing_from lo l -> NoDup l.
Proof.
  revert lo. induction l as [|t l IH]; intros lo H; [constructor|].
  destruct H as [_ H]. constructor; [|now apply (IH t)].
  intro Hin. pose proof (increasing_from_above _ _ _ H Hin). lia.
Qed.

Lemma sorted_labels_NoDup (l : list Z) : NoDup (sorted_labels l).
Proof.
  pose proof (sorted_labels_increasing l) as H.
  destruct (sorted_labels l) as [|t l']; [constructor|].
  cbn in H. constructor; [|now apply (increasing_from_NoDup t)].
  intro Hin. pose proof (increasing_from_above _ _ _ H Hin). lia.
Qed.

(** ** The weekend table *)

Lemma all_at_In {A : Type} (s : Series A) (t : Z) (a : A) :
  In a (all_at s t) <-> In (t, a) s.
Proof.
  unfold all_at, values. rewrite in_map_iff. split.
  - intros ([t' a'] & <- & H). apply filter_In in H as [H E].
    cbn [fst snd] in *. apply Z.eqb_eq in E. now subst.
  - intro H. exists (t, a). split; [reflexivity|].
    apply filter_In. split; [exact H | apply Z.eqb_refl].
Qed.

(** The rows of the merge under one label. *)
Lemma merge_rows_In (left right : Series cell) (t t' : Z) (a b : cell) :
  In (t', (a, b)) (merge_rows left right t)
  <-> t' = t
      /\ ((In (t, a) left /\ In (t, b) right)
          \/ (In (t, a) left /\ all_at right t = [] /\ b = CNaN)
          \/ (a = CNaN /\ all_at left t = [] /\ In (t, b) right)).
Proof.
  unfold merge_rows. rewrite <- (all_at_In left t a), <- (all_at_In right t b).
  destruct (all_at left t) as [|l0 ls] eqn:El, (all_at right t) as [|r0 rs] eqn:Er;
    cbv iota; rewrite in_map_iff.
  - split; [intros (x & _ & []) | intros (_ & [[[] _] | [[[] _] | (_ & _ & [])]])].
  - split.
    + intros (r & E & H). injection E as <- <- <-. split; [reflexivity|].
      right. right. auto.
    + intros (-> & [[[] _] | [[[] _] | (-> & _ & H)]]). exists b. auto.
  - split.
    + intros (l & E & H). injection E as <- <- <-. split; [reflexivity|].
      right. left. auto.
    + intros (-> & [[_ []] | [(H & _ & ->) | (_ & E & _)]]); [|discriminate].
      exists a. auto.
  - split.
    + intros ([l r] & E & H). injection E as <- <- <-. split; [reflexivity|].
      apply in_prod_iff in H. left. exact H.
    + intros (-> & [H | [(_ & E & _) | (_ & E & _)]]); try discriminate.
      exists (a, b). split; [reflexivity|]. apply in_prod_iff. exact H.
Qed.

Lemma rainy_CNaN : rainy CNaN = false.
Proof. reflexivity. Qed.

(** Under a label, some row of the merge is flagged exactly when a value
    of either side under that label is rainy. *)
Lemma merge_outer_flag (left right : Series cell) (t : Z) :
  (exists a b, In (t, (a, b)) (merge_outer left right) /\ rainy a || rainy b = true)
  <-> (exists c, (In (t, c) left \/ In (t, c) right) /\ rainy c = true).
Proof.
  unfold merge_outer. split.
  - intros (a & b & Hin & Hr).
    apply in_flat_map in Hin as (k & _ & Hin).
    apply merge_rows_In in Hin as (-> & H).
    apply orb_true_iff in Hr.
    destruct H as [[Ha Hb] | [(Ha & _ & ->) | (-> & _ & Hb)]].
    + destruct Hr as [Hr|Hr]; [exists a | exists b]; auto.
    + destruct Hr as [Hr|Hr]; [exists a; auto | now rewrite rainy_CNaN in Hr].
    + destruct Hr as [Hr|Hr]; [now rewrite rainy_CNaN in Hr | exists b; auto].
  - intros (c & Hin & Hr).
    assert (In t (sorted_labels (index left ++ index right))) as Hk.
    { apply sorted_labels_In, in_app_iff. unfold index.
      destruct Hin as [H|H]; [left | right];
        apply in_map_iff; exists (t, c); auto. }
    destruct Hin as [Hl | Hrt].
    + destruct (all_at right t) as [|r0 rs] eqn:Er.
      * exists c, CNaN. split; [|now rewrite Hr].
        apply in_flat_map. exists t. split; [exact Hk|].
        apply merge_rows_In. split; [reflexivity|]. right. left. auto.
      * exists c, r0. split; [|now rewrite Hr].
        apply in_flat_map. exists t. split; [exact Hk|].
        apply merge_rows_In. split; [reflexivity|]. left. split; [exact Hl|].
        apply all_at_In. rewrite Er. now left.
    + destruct (all_at left t) as [|l0 ls] eqn:El.
      * exists CNaN, c. split; [|rewrite Hr; apply orb_true_r].
        apply in_flat_map. exists t. split; [exact Hk|].
        apply merge_rows_In. split; [reflexivity|]. right. right. auto.
      * exists l0, c. split; [|rewrite Hr; apply orb_true_r].
        apply in_flat_map. exists t. split; [exact Hk|].
        apply merge_rows_In. split; [reflexivity|]. left. split; [|exact Hrt].
        apply all_at_In. rewrite El. now left.
Qed.

Lemma date_of_day_before (t : Z) : date_of (t - one_day) = date_of t - 1.
Proof.
  unfold date_of.
  replace (t - one_day) with (t + (-1) * one_day) by lia.
  rewrite Z.div_add by (unfold one_day; lia). lia.
Qed.

(** A row of the weekend table is flagged under the date [d] exactly for
    a rainy observation of the Saturday [d] or of the Sunday after. *)
Lemma rainy_combined_flag (conditionCode : Series cell) (d : Z) :
  (exists t, In (t, true) (rainy_combined conditionCode) /\ date_of t = d)
  <-> exists t c,
      In (t, c) conditionCode /\ rainy c = true
      /\ ((weekday t = 5 /\ date_of t = d) \/ (weekday t = 6 /\ date_of t = d + 1)).
Proof.
  unfold rainy_combined.
  set (saturday_weather := filter (fun r => weekday (fst r) =? 5) conditionCode).
  set (sunday_weather :=
         shift_back_one_day (filter (fun r => weekday (fst r) =? 6) conditionCode)).
  assert (forall t c, In (t, c) saturday_weather
                      <-> In (t, c) conditionCode /\ weekday t = 5) as Hsat.
  { intros t c. unfold saturday_weather. rewrite filter_In. cbn [fst].
    now rewrite Z.eqb_eq. }
  assert (forall t c, In (t, c) sunday_weather
                      <-> In (t + one_day, c) conditionCode /\ weekday (t + one_day) = 6)
    as Hsun.
  { intros t c. unfold sunday_weather, shift_back_one_day. rewrite in_map_iff. split.
    - intros ([t0 c0] & E & H). cbn [fst snd] in E. injection E as <- <-.
      apply filter_In in H as [H Hw]. cbn [fst] in Hw. apply Z.eqb_eq in Hw.
      replace (t0 - one_day + one_day) with t0 by lia. auto.
    - intros [H Hw]. exists (t + one_day, c). split.
      + cbn [fst snd]. f_equal. lia.
      + apply filter_In. cbn [fst]. split; [exact H | now apply Z.eqb_eq]. }
  split.
  - intros (t & Hin & Hd).
    apply in_map_iff in Hin as ([t' [a b]] & E & Hin).
    cbn [fst snd] in E. injection E as -> Hflag.
    destruct (proj1 (merge_outer_flag saturday_weather sunday_weather t)) as (c & Hc & Hr).
    { exists a, b. auto. }
    destruct Hc as [Hc|Hc].
    + apply Hsat in Hc as [Hc Hw]. exists t, c. auto.
    + apply Hsun in Hc as [Hc Hw]. exists (t + one_day), c.
      split; [exact Hc|]. split; [exact Hr|]. right. split; [exact Hw|].
      pose proof (date_of_day_before (t + one_day)) as Hb.
      replace (t + one_day - one_day) with t in Hb by lia. lia.
  - intros (t & c & Hin & Hr & [[Hw Hd] | [Hw Hd]]).
    + destruct (proj2 (merge_outer_flag saturday_weather sunday_weather t))
        as (a & b & Hrow & Hflag).
      { exists c. split; [left; apply Hsat; auto | exact Hr]. }
      exists t. split; [|exact Hd].
      apply in_map_iff. exists (t, (a, b)). cbn [fst snd]. rewrite Hflag. auto.
    + destruct (proj2 (merge_outer_flag saturday_weather sunday_weather (t - one_day)))
        as (a & b & Hrow & Hflag).
      { exists c. split; [|exact Hr]. right. apply Hsun.
        replace (t - one_day + one_day) with t by lia. auto. }
      exists (t - one_day). split; [|rewrite date_of_day_before; lia].
      apply in_map_iff. exists (t - one_day, (a, b)). cbn [fst snd]. rewrite Hflag. auto.
Qed.

(** ** Grouping and counting *)

Lemma true_in_iff (x : list bool) : true_in x = true <-> In true x.
Proof.
  unfold true_in. rewrite existsb_exists. split.
  - intros (b & H & ->). exact H.
  - intro H. exists true. auto.
Qed.

Lemma group_flag (s : Series bool) (d : Z) :
  In (d, true) (map (fun g => (fst g, true_in (snd g))) (group_by_date s))
  <-> exists t, In (t, true) s /\ date_of t = d.
Proof.
  unfold group_by_date. rewrite map_map. cbn [fst snd]. rewrite in_map_iff. split.
  - intros (d' & E & _). injection E as -> Ht.
    apply true_in_iff in Ht. unfold values in Ht.
    apply in_map_iff in Ht as ([t b] & Eb & Hin). cbn [snd] in Eb. subst b.
    apply filter_In in Hin as [Hin Hd]. cbn [fst] in Hd. apply Z.eqb_eq in Hd.
    eauto.
  - intros (t & Hin & Hd). exists d. split.
    + f_equal. apply true_in_iff. unfold values. apply in_map_iff.
      exists (t, true). split; [reflexivity|].
      apply filter_In. cbn [fst]. split; [exact Hin | now apply Z.eqb_eq].
    + apply sorted_labels_In, in_map_iff. exists t. split; [exact Hd|].
      unfold index. apply in_map_iff. exists (t, true). auto.
Qed.

Lemma rainy_by_date_keys (conditionCode : Series cell) :
  NoDup (map fst (rainy_by_date conditionCode)).
Proof.
  unfold rainy_by_date, group_by_date. rewrite !map_map. cbn [fst].
  rewrite map_id. apply sorted_labels_NoDup.
Qed.

Lemma sum_bool_count {A : Type} (l : list (A * bool)) :
  sum_bool (map snd l) = Z.of_nat (List.length (filter snd l)).
Proof.
  induction l as [|[a b] l IH]; [reflexivity|].
  cbn [map snd sum_bool fold_right filter]. fold (sum_bool (map snd l)).
  rewrite IH. destruct b; cbn [List.length]; lia.
Qed.

Lemma NoDup_map_fst_filter {A B : Type} (f : A * B -> bool) (l : list (A * B)) :
  NoDup (map fst l) -> NoDup (map fst (filter f l)).
Proof.
  induction l as [|x l IH]; intro H; [constructor|].
  cbn [map] in H. inversion H as [|? ? Hnin Hnd]; subst.
  cbn [filter]. destruct (f x); [|now apply IH].
  cbn [map]. constructor; [|now apply IH].
  intro Hin. apply Hnin. apply in_map_iff in Hin as (y & E & Hy).
  apply filter_In in Hy as [Hy _]. apply in_map_iff. eauto.
Qed.



(** The two scenarios of the specification, and a table with a dry
    Saturday ("Rain" does not match), a rainy Sunday after it and a
    rainy Monday. *)
Example rainy_weekend_scenarios :
  rainy_weekend_count only_saturday = 1
  /\ rainy_weekend_count light_rain_then_clear = 1
  /\ rainy_by_date dry_saturday_wet_sunday = [(19728, true)]
  /\ rainy_weekend_count [(saturday_noon, CStr "Rain")] = 0.
Proof. repeat split; vm_compute; reflexivity. Qed.

(** * More properties of the script *)

(** ** What the custom interpolation returns, whenever it returns *)

Lemma resample_asfreq_ok_index (s : Series Q) (r : Series (option Q)) :
  resample_asfreq s = Ok r -> index r = resample_labels (index s).
Proof.
  unfold resample_asfreq.
  destruct (inferred_5min (index (sort_index s))
            && Nat.eqb (List.length s) (List.length (resample_labels (index s)))) eqn:E.
  - intros [= <-]. apply andb_true_iff in E as [_ E]. apply Nat.eqb_eq in E.
    apply index_combine. unfold values. rewrite !length_map, length_sort_index. congruence.
  - destruct (is_unique (index s)); [|discriminate].
    intros [= <-]. unfold index. rewrite map_map. cbn [fst]. apply map_id.
Qed.

(** A returned series pairs the grid with the data of the loop. *)
Lemma custom_linear_ok_inv (s : Series Q) (r : Series Q) :
  custom_linear_interpolation s "linear" = Ok (Some r) ->
  index r = resample_labels (index s)
  /\ values r = interpolated_data_of (values s)
  /\ s <> [].
Proof.
  unfold custom_linear_interpolation.
  destruct (resample_asfreq s) as [rs|e] eqn:Hrs; cbn [bind]; [|discriminate].
  change (String.eqb "linear" "linear") with true. cbv iota.
  destruct (values s) as [|v0 vs] eqn:Ev; [discriminate|].
  rewrite interpolation_loop. cbn [app].
  change (v0 :: flat_map block (consecutive_pairs (v0 :: vs)))
    with (interpolated_data_of (v0 :: vs)).
  unfold pd_Series.
  destruct (Nat.eqb_spec (List.length (interpolated_data_of (v0 :: vs)))
                         (List.length (index rs))) as [Hlen|]; cbn [bind]; [|discriminate].
  intros [= <-].
  rewrite (resample_asfreq_ok_index s rs Hrs) in *.
  split; [now apply index_combine|]. split; [now apply values_combine|].
  intros ->. discriminate.
Qed.

Lemma grid_S (lo : Z) (m : nat) :
  grid lo (S m) = lo :: grid (lo + five_minutes) m.
Proof.
  unfold grid. cbn [seq map]. f_equal; [lia|].
  rewrite (seq_add_map 1 m), map_map. apply map_ext. intro k. lia.
Qed.

Lemma all_spaced_grid (lo : Z) (m : nat) : all_spaced five_minutes (grid lo m) = true.
Proof.
  revert lo. induction m as [|m IH]; intro lo; [reflexivity|].
  rewrite grid_S. specialize (IH (lo + five_minutes)).
  destruct m as [|m]; [reflexivity|].
  rewrite grid_S in *. cbn [all_spaced].
  apply andb_true_iff. split; [apply Z.eqb_eq; lia | exact IH].
Qed.

Lemma fold_min_below (l : list Z) (a x : Z) :
  x = a \/ In x l -> fold_left Z.min l a <= x.
Proof.
  revert a. induction l as [|y l IH]; intros a H; cbn [fold_left].
  - destruct H as [->|[]]. lia.
  - destruct H as [->|[->|H]].
    + etransitivity; [apply fold_min_le | lia].
    + etransitivity; [apply fold_min_le | lia].
    + apply IH. now right.
Qed.

Lemma fold_max_above (l : list Z) (a x : Z) :
  x = a \/ In x l -> x <= fold_left Z.max l a.
Proof.
  revert a. induction l as [|y l IH]; intros a H; cbn [fold_left].
  - destruct H as [->|[]]. lia.
  - destruct H as [->|[->|H]].
    + etransitivity; [|apply fold_max_ge]. lia.
    + etransitivity; [|apply fold_max_ge]. lia.
    + apply IH. now right.
Qed.

Lemma resample_labels_grid (t : Z) (rest : list Z) :
  resample_labels (t :: rest)
  = grid (floor5 (minimum t rest))
         (Z.to_nat (maximum t rest / five_minutes - minimum t rest / five_minutes + 1)).
Proof.
  unfold resample_labels, date_range, grid. do 3 f_equal.
  unfold floor5.
  replace (five_minutes * (maximum t rest / five_minutes)
           - five_minutes * (minimum t rest / five_minutes))
    with ((maximum t rest / five_minutes - minimum t rest / five_minutes) * five_minutes)
    by lia.
  rewrite Z.div_mul by discriminate. reflexivity.
Qed.

(** X1.  Whenever the custom linear interpolation returns a series, its
    index is the 5-minute grid of the input: it starts at the bin of the
    earliest timestamp, goes on in steps of exactly five minutes, holds
    the bin of every input timestamp, and has [12 * (n - 1) + 1]
    labels. *)
Theorem custom_result_index (s r : Series Q) :
  custom_linear_interpolation s "linear" = Ok (Some r) ->
  all_spaced five_minutes (index r) = true
  /\ (forall t, In t (index s) -> In (floor5 t) (index r))
  /\ (forall t rest, index s = t :: rest -> hd_error (index r) = Some (floor5 (minimum t rest)))
  /\ List.length r = (12 * (List.length s - 1) + 1)%nat.
Proof.
  intros H. destruct (custom_linear_ok_inv s r H) as (Hidx & Hval & Hne).
  destruct (index s) as [|t0 rest] eqn:Es; [destruct s; [congruence | discriminate]|].
  rewrite Hidx, resample_labels_grid.
  split; [apply all_spaced_grid|]. split; [|split].
  - intros t Ht.
    assert (minimum t0 rest <= t <= maximum t0 rest) as Hb.
    { split; [apply fold_min_below | apply fold_max_above];
        destruct Ht as [<-|Ht]; auto. }
    assert (minimum t0 rest / five_minutes <= t / five_minutes <= maximum t0 rest / five_minutes)
      as Hd by (split; apply Z.div_le_mono; unfold five_minutes; lia).
    unfold grid. apply in_map_iff.
    exists (Z.to_nat (t / five_minutes - minimum t0 rest / five_minutes)). split.
    + unfold floor5, five_minutes in *. lia.
    + apply in_seq. unfold five_minutes in *. lia.
  - intros t rest' [= <- <-].
    assert (minimum t0 rest / five_minutes <= maximum t0 rest / five_minutes) as Hd.
    { apply Z.div_le_mono; [unfold five_minutes; lia|].
      pose proof (fold_min_le rest t0). pose proof (fold_max_ge rest t0).
      unfold minimum, maximum. lia. }
    destruct (Z.to_nat _) as [|m] eqn:Em; [lia|].
    rewrite grid_S. reflexivity.
  - rewrite <- (length_map snd r). fold (values r). rewrite Hval.
    rewrite length_interpolated_data_of by (destruct s; [congruence | discriminate]).
    unfold values. now rewrite length_map.
Qed.

Lemma custom_result_index_witness :
  exists r,
    custom_linear_interpolation series_uneven "linear" = Ok (Some r)
    /\ all_spaced five_minutes (index r) = true
    /\ List.length r = 25%nat.
Proof.
  exists (combine (resample_labels (index series_uneven))
                  (interpolated_data_of (values series_uneven))).
  assert (custom_linear_interpolation series_uneven "linear"
          = Ok (Some (combine (resample_labels (index series_uneven))
                              (interpolated_data_of (values series_uneven))))) as H
    by (vm_compute; reflexivity).
  split; [exact H|].
  destruct (custom_result_index _ _ H) as (Hs & _ & _ & Hl).
  split; [exact Hs | exact Hl].
Defined.

(** ** The interpolated values *)







(** ** Series the custom interpolation refuses *)

Lemma insert_row_perm {A : Type} (r : Z * A) (s : Series A) :
  Permutation (insert_row r s) (r :: s).
Proof.
  induction s as [|r' s IH]; cbn [insert_row]; [reflexivity|].
  destruct (fst r' <=? fst r); [|reflexivity].
  rewrite IH. apply perm_swap.
Qed.

Lemma sort_index_perm {A : Type} (s : Series A) : Permutation (sort_index s) s.
Proof.
  induction s as [|r s IH]; cbn [sort_index]; [reflexivity|].
  rewrite insert_row_perm. now constructor.
Qed.

Lemma all_spaced_tail (d t0 : Z) (l : list Z) :
  all_spaced d (t0 :: l) = true -> all_spaced d l = true.
Proof.
  destruct l as [|t1 l]; [reflexivity|].
  cbn [all_spaced]. intro H. now apply andb_true_iff in H as [_ H].
Qed.

Lemma all_spaced_is_unique (d : Z) (idx : list Z) :
  0 < d -> all_spaced d idx = true -> is_unique idx = true.
Proof.
  intros Hd. induction idx as [|t0 l IH]; intro H; [reflexivity|].
  cbn [is_unique]. apply andb_true_iff. split.
  - apply negb_true_iff. destruct (mem t0 l) eqn:E; [|reflexivity].
    apply mem_In in E.
    destruct (all_spaced_In _ _ _ _ H E) as (i & Hi & Hx). nia.
  - apply IH. now apply all_spaced_tail in H.
Qed.

Lemma inferred_5min_unique {A : Type} (s : Series A) :
  inferred_5min (index (sort_index s)) = true -> is_unique (index s) = true.
Proof.
  unfold inferred_5min. intro H. apply andb_true_iff in H as [_ H].
  apply (all_spaced_is_unique five_minutes) in H; [|reflexivity].
  apply is_unique_NoDup in H. apply is_unique_NoDup.
  apply (Permutation_NoDup (l := index (sort_index s))); [|exact H].
  unfold index. apply Permutation_map, sort_index_perm.
Qed.

Lemma resample_asfreq_duplicates (s : Series Q) :
  is_unique (index s) = false -> resample_asfreq s = Raise ValueError.
Proof.
  intros Hu. unfold resample_asfreq.
  destruct (inferred_5min (index (sort_index s))) eqn:E.
  - apply inferred_5min_unique in E. congruence.
  - cbn [andb]. now rewrite Hu.
Qed.

Lemma interpolations_after_resample (s : Series Q) (interpolation_type : string) (e : exn) :
  resample_asfreq s = Raise e ->
  custom_linear_interpolation s interpolation_type = Raise e
  /\ built_in_interpolation s = Raise e.
Proof.
  intros Hr. unfold custom_linear_interpolation, built_in_interpolation. rewrite Hr.
  split; reflexivity.
Qed.

(** X4.  On a series in which a timestamp occurs twice, both
    interpolations raise ValueError, the custom one whatever the
    interpolation type: the resample they start with cannot reindex a
    duplicated index. *)
Theorem interpolation_refuses_duplicates (s : Series Q) (interpolation_type : string) :
  is_unique (index s) = false ->
  custom_linear_interpolation s interpolation_type = Raise ValueError
  /\ built_in_interpolation s = Raise ValueError.
Proof.
  intros Hu. now apply interpolations_after_resample, resample_asfreq_duplicates.
Qed.

Lemma interpolation_refuses_duplicates_witness :
  custom_linear_interpolation series_duplicate "linear" = Raise ValueError
  /\ built_in_interpolation series_duplicate = Raise ValueError.
Proof. apply interpolation_refuses_duplicates. reflexivity. Defined.

Lemma spaced_minimum (d : Z) (l : list Z) (t0 : Z) :
  0 <= d -> all_spaced d (t0 :: l) = true -> minimum t0 l = t0.
Proof.
  intros Hd H. apply fold_min_lower. intros x Hx.
  destruct (all_spaced_In _ _ _ _ H Hx) as (i & _ & ->). nia.
Qed.

Lemma spaced_maximum (d : Z) (l : list Z) (t0 : Z) :
  0 <= d -> all_spaced d (t0 :: l) = true ->
  maximum t0 l = t0 + d * Z.of_nat (List.length l).
Proof.
  intros Hd. revert t0. induction l as [|t1 l IH]; intros t0 H.
  - unfold maximum. simpl. lia.
  - cbn [all_spaced] in H. apply andb_true_iff in H as [Hs H].
    apply Z.eqb_eq in Hs.
    unfold maximum. cbn [fold_left].
    replace (Z.max t0 t1) with t1 by lia.
    fold (maximum t1 l). rewrite (IH t1 H).
    cbn [List.length]. lia.
Qed.

Lemma floor5_add_multiple (t d m : Z) :
  d mod five_minutes = 0 -> floor5 (t + d * m) = floor5 t + d * m.
Proof.
  intros Hd. unfold floor5.
  apply Z.mod_divide in Hd as [c Hc]; [|discriminate]. subst d.
  replace (t + c * five_minutes * m) with (t + (c * m) * five_minutes) by lia.
  rewrite Z.div_add by discriminate. lia.
Qed.

(** X5.  On a series of at least two points that are evenly spaced by a
    whole number of 5-minute steps other than one hour (every three
    hours, say, or already every five minutes), the custom linear
    interpolation raises ValueError. *)
Theorem custom_refuses_other_even_spacing (s : Series Q) (d : Z) :
  (2 <= List.length s)%nat ->
  0 < d ->
  d mod five_minutes = 0 ->
  d <> one_hour ->
  all_spaced d (index s) = true ->
  custom_linear_interpolation s "linear" = Raise ValueError.
Proof.
  intros Hn Hd Hm Hne H.
  assert (s <> []) as Hs by (destruct s; [simpl in Hn; lia | discriminate]).
  apply (custom_linear_cases s Hs (all_spaced_is_unique d _ Hd H)).
  destruct (index s) as [|t0 l] eqn:Es; [destruct s; [congruence | discriminate]|].
  assert (List.length s = S (List.length l)) as Hl
    by (rewrite <- (length_map fst s); fold (index s); now rewrite Es).
  unfold span5.
  rewrite (spaced_minimum d l t0), (spaced_maximum d l t0) by (assumption || lia).
  rewrite floor5_add_multiple by exact Hm.
  rewrite Hl. unfold one_hour in *. nia.
Qed.

Lemma custom_refuses_other_even_spacing_witness :
  custom_linear_interpolation series_three_hourly "linear" = Raise ValueError.
Proof.
  apply (custom_refuses_other_even_spacing series_three_hourly 10800).
  - simpl. lia.
  - lia.
  - reflexivity.
  - discriminate.
  - reflexivity.
Defined.

(** ** More on the merge *)

Lemma loc_mask_app {A : Type} (a b : Series A) (ma mb : list bool) :
  List.length a = List.length ma ->
  loc_mask (a ++ b) (ma ++ mb) = loc_mask a ma ++ loc_mask b mb.
Proof.
  revert ma. induction a as [|r a IH]; intros [|m ma] H; try discriminate.
  - reflexivity.
  - cbn [app]. rewrite !loc_mask_cons, IH by (simpl in H; lia).
    now destruct m.
Qed.

Lemma duplicated_from_app (seen a b : list Z) :
  duplicated_from seen (a ++ b)
  = duplicated_from seen a ++ duplicated_from (rev a ++ seen) b.
Proof.
  revert seen. induction a as [|t a IH]; intro seen; [reflexivity|].
  cbn [app duplicated_from rev]. rewrite IH, <- app_assoc. reflexivity.
Qed.

Lemma length_duplicated_from (seen idx : list Z) :
  List.length (duplicated_from seen idx) = List.length idx.
Proof.
  revert seen. induction idx as [|t idx IH]; intro seen; [reflexivity|].
  cbn [duplicated_from List.length]. now rewrite IH.
Qed.

Lemma keep_all_unique {A : Type} (a : Series A) (seen : list Z) :
  is_unique (index a) = true ->
  (forall t, In t (index a) -> ~ In t seen) ->
  loc_mask a (map negb (duplicated_from seen (index a))) = a.
Proof.
  revert seen. induction a as [|[t0 r0] a IH]; intros seen Hu Hd; [reflexivity|].
  cbn [index map fst is_unique] in Hu. fold (index a) in Hu.
  apply andb_true_iff in Hu as [Hn Hu]. apply negb_true_iff in Hn.
  cbn [index map fst duplicated_from]. fold (index a).
  rewrite loc_mask_cons.
  destruct (mem t0 seen) eqn:E.
  - apply mem_In in E. exfalso. apply (Hd t0); [now left | exact E].
  - cbn [negb]. f_equal. apply IH; [exact Hu|].
    intros t Ht [<-|Hs].
    + apply mem_In in Ht. congruence.
    + apply (Hd t); [now right | exact Hs].
Qed.

(** The merge with a historical table that has no repeated timestamp. *)
Lemma all_weather_unique_historical {R : Type} (h f : DataFrame R) :
  is_unique (index h) = true ->
  all_weather h f
  = h ++ loc_mask f (map negb (duplicated_from (rev (index h)) (index f))).
Proof.
  intros Hu. unfold all_weather, duplicated, pd_concat, index.
  rewrite map_app. fold (index h). fold (index f).
  rewrite duplicated_from_app, map_app, loc_mask_app
    by (rewrite length_map, length_duplicated_from; unfold index; now rewrite length_map).
  rewrite app_nil_r. f_equal.
  apply keep_all_unique; [exact Hu | intros t _ []].
Qed.

(** X6.  When no timestamp occurs twice in the historical table, the
    merge keeps that table whole and in order, and appends to it the
    forecast rows whose timestamps it does not have, each timestamp
    once. *)
Theorem all_weather_keeps_historical {R : Type}
        (historical_weather forecast_weather : DataFrame R) :
  is_unique (index historical_weather) = true ->
  exists appended,
    all_weather historical_weather forecast_weather = historical_weather ++ appended
    /\ NoDup (index appended)
    /\ (forall t, In t (index appended)
                  <-> In t (index forecast_weather) /\ ~ In t (index historical_weather))
    /\ (forall t, ~ In t (index historical_weather) ->
                  row_at appended t = row_at forecast_weather t).
Proof.
  intros Hu. eexists. split; [now apply all_weather_unique_historical|].
  destruct (keep_first_from forecast_weather (rev (index historical_weather)))
    as (Hnd & Hin & Hloc). cbn zeta in Hnd, Hin, Hloc.
  split; [exact Hnd|]. split.
  - intro t. rewrite Hin, <- in_rev. reflexivity.
  - intros t Ht. unfold row_at. rewrite Hloc.
    destruct (mem t (rev (index historical_weather))) eqn:E; [|reflexivity].
    apply mem_In, in_rev in E. contradiction.
Qed.

Lemma all_weather_keeps_historical_witness :
  exists appended,
    all_weather [(0, 1%Q); (3600, 2%Q)] [(3600, 9%Q); (7200, 3%Q); (7200, 4%Q)]
    = [(0, 1%Q); (3600, 2%Q)] ++ appended
    /\ index appended = [7200].
Proof.
  destruct (all_weather_keeps_historical
              [(0, 1%Q); (3600, 2%Q)] [(3600, 9%Q); (7200, 3%Q); (7200, 4%Q)])
    as (appended & H & _); [reflexivity|].
  exists appended. split; [exact H|].
  apply (f_equal (skipn 2)) in H. cbn [skipn app] in H.
  rewrite <- H. reflexivity.
Defined.

(** X7.  Merging the merged table with the forecast once more changes
    nothing. *)
Theorem all_weather_again {R : Type} (historical_weather forecast_weather : DataFrame R) :
  all_weather (all_weather historical_weather forecast_weather) forecast_weather
  = all_weather historical_weather forecast_weather.
Proof.
  set (merged := all_weather historical_weather forecast_weather).
  assert (NoDup (index merged)
          /\ forall t, In t (index forecast_weather) -> In t (index merged)) as [Hnd Hall].
  { unfold merged, all_weather, duplicated, pd_concat.
    destruct (keep_first_from (historical_weather ++ forecast_weather) [])
      as (Hnd & Hin & _). cbn zeta in Hnd, Hin.
    split; [exact Hnd|]. intros t Ht. apply Hin.
    split; [|intros []]. unfold index. rewrite map_app. apply in_app_iff. now right. }
  rewrite all_weather_unique_historical by (now apply is_unique_NoDup).
  destruct (keep_first_from forecast_weather (rev (index merged))) as (_ & Hin & _).
  cbn zeta in Hin.
  destruct (loc_mask forecast_weather
              (map negb (duplicated_from (rev (index merged)) (index forecast_weather))))
    as [|[t r] rest] eqn:E; [apply app_nil_r|].
  exfalso. destruct (proj1 (Hin t)) as [Hf Hm]; [now left|].
  apply Hm. apply -> in_rev. now apply Hall.
Qed.

(** ** More on the rainy weekends *)

(** The weekends the count counts. *)
Lemma counted_weekends (cc : Series cell) :
  exists counted,
    NoDup counted
    /\ rainy_weekend_count cc = Z.of_nat (List.length counted)
    /\ forall d, In d counted
                 <-> exists t c,
                     In (t, c) cc /\ rainy c = true
                     /\ ((weekday t = 5 /\ date_of t = d)
                         \/ (weekday t = 6 /\ date_of t = d + 1)).
Proof.
  exists (map fst (filter snd (rainy_by_date cc))). split; [|split].
  - apply NoDup_map_fst_filter, rainy_by_date_keys.
  - unfold rainy_weekend_count. now rewrite sum_bool_count, length_map.
  - intro d. rewrite <- rainy_combined_flag, <- group_flag.
    fold (rainy_by_date cc). rewrite in_map_iff. split.
    + intros ([d' b] & E & Hin). cbn [fst] in E. subst d'.
      apply filter_In in Hin as [Hin Hb]. cbn [snd] in Hb. now subst b.
    + intro Hin. exists (d, true). split; [reflexivity|].
      apply filter_In. auto.
Qed.

(** X8.  The count of rainy weekends depends only on which observations
    the table holds: it cannot go down when observations are added, and
    two tables with the same observations, in any order and however
    often repeated, have the same count. *)
Theorem rainy_weekend_count_monotone (cc cc' : Series cell) :
  (incl cc cc' -> rainy_weekend_count cc <= rainy_weekend_count cc')
  /\ ((forall x, In x cc <-> In x cc') -> rainy_weekend_count cc = rainy_weekend_count cc').
Proof.
  assert (forall a b : Series cell,
             incl a b -> rainy_weekend_count a <= rainy_weekend_count b) as Hmono.
  { intros a b Hincl.
    destruct (counted_weekends a) as (la & Hnda & -> & Ha).
    destruct (counted_weekends b) as (lb & Hndb & -> & Hb).
    apply inj_le, NoDup_incl_length; [exact Hnda|].
    intros d Hd. apply Hb. apply Ha in Hd as (t & c & Hin & H).
    exists t, c. split; [now apply Hincl | exact H]. }
  split; [apply Hmono|].
  intros Hsame. apply Z.le_antisymm; apply Hmono; intros x Hx; now apply Hsame.
Qed.

Lemma rainy_weekend_count_monotone_witness :
  rainy_weekend_count only_saturday
  <= rainy_weekend_count (only_saturday ++ dry_saturday_wet_sunday).
Proof.
  apply (proj1 (rainy_weekend_count_monotone only_saturday
                  (only_saturday ++ dry_saturday_wet_sunday))).
  intros x Hx. apply in_app_iff. now left.
Defined.


(** ** More on the normalisation *)


Lemma NoDup_map_injective {A B : Type} (f : A -> B) (l : list A) (x y : A) :
  NoDup (map f l) -> In x l -> In y l -> f x = f y -> x = y.
Proof.
  induction l as [|a l IH]; intros Hnd Hx Hy Hf; [destruct Hx|].
  cbn [map] in Hnd. inversion Hnd as [|? ? Hnin Hnd']; subst.
  destruct Hx as [->|Hx], Hy as [->|Hy].
  - reflexivity.
  - exfalso. apply Hnin. rewrite Hf. now apply in_map.
  - exfalso. apply Hnin. rewrite <- Hf. now apply in_map.
  - now apply IH.
Qed.

(** X11.  A series whose UTC timestamps hold both an hour [u] of summer
    time and the hour after it, in which the clocks are back on standard
    time, has a repeated timestamp once normalised, and both
    interpolations raise ValueError on it. *)
Theorem interpolation_across_clock_change
        (utc : list Z) (vs : list Q) (u : Z) (interpolation_type : string) :
  List.length utc = List.length vs ->
  In u utc -> In (u + one_hour) utc ->
  vilnius_utcoffset u = EEST -> vilnius_utcoffset (u + one_hour) = EET ->
  custom_linear_interpolation (combine (normalize_index utc) vs) interpolation_type
  = Raise ValueError
  /\ built_in_interpolation (combine (normalize_index utc) vs) = Raise ValueError.
Proof.
  intros Hlen Hu Hu' Ho Ho'.
  apply interpolations_after_resample, resample_asfreq_duplicates.
  rewrite index_combine by (unfold normalize_index; now rewrite length_map).
  destruct (is_unique (normalize_index utc)) eqn:E; [|reflexivity].
  apply is_unique_NoDup in E. unfold normalize_index in E.
  assert (u = u + one_hour) as Habs.
  { apply (NoDup_map_injective to_naive_local utc); try assumption.
    unfold to_naive_local. rewrite Ho, Ho'. unfold EEST, EET, one_hour. lia. }
  unfold one_hour in Habs. lia.
Qed.

Lemma interpolation_across_clock_change_witness :
  custom_linear_interpolation
    (combine (normalize_index utc_around_clock_change) [8%Q; 7%Q; 7%Q; 6%Q]) "linear"
  = Raise ValueError.
Proof.
  apply (interpolation_across_clock_change
           utc_around_clock_change [8%Q; 7%Q; 7%Q; 6%Q] 1729987200 "linear").
  - reflexivity.
  - right. left. reflexivity.
  - right. right. left. reflexivity.
  - vm_compute. reflexivity.
  - vm_compute. reflexivity.
Defined.

(** ** More on fetching *)


Lemma day_urls_S (historical_url : string) (current_date : Z) (n : nat) :
  day_urls historical_url current_date (S n)
  = Url historical_url current_date :: day_urls historical_url (current_date + 1) n.
Proof.
  unfold day_urls. cbn [seq map]. f_equal; [f_equal; lia|].
  rewrite (seq_add_map 1 n), map_map. apply map_ext. intro j. f_equal. lia.
Qed.

(** One turn of the loop on a day that delivers. *)
Lemma fetch_days_step (req_get : url -> response) (historical_url : string)
      (n : nat) (current_date : Z) (weather_records observations : list record) (w : world) :
  day_outcome req_get (Url historical_url current_date) = Ok observations ->
  fetch_days req_get historical_url (S n) current_date weather_records w
  = fetch_days req_get historical_url n (current_date + 1) (weather_records ++ observations)
               (World (printed w) (Url historical_url current_date :: requested w)).
Proof.
  unfold day_outcome. intro H. cbn [fetch_days]. unfold fetch_data.
  destruct (req_get (Url historical_url current_date)) as [error | status_code body];
    [discriminate|].
  destruct (status_code =? 200); [|discriminate].
  cbn [negb]. now rewrite H.
Qed.

(** One turn of the loop on a day that does not. *)
Lemma fetch_days_stop (req_get : url -> response) (historical_url : string)
      (n : nat) (current_date : Z) (weather_records : list record) (w : world) (e : exn) :
  day_outcome req_get (Url historical_url current_date) = Raise e ->
  fst (fetch_days req_get historical_url (S n) current_date weather_records w) = Raise e
  /\ requested (snd (fetch_days req_get historical_url (S n) current_date weather_records w))
     = Url historical_url current_date :: requested w.
Proof.
  unfold day_outcome. intro H. cbn [fetch_days]. unfold fetch_data.
  destruct (req_get (Url historical_url current_date)) as [error | status_code body].
  - injection H as <-. split; reflexivity.
  - destruct (status_code =? 200); cbn [negb].
    + rewrite H. split; reflexivity.
    + injection H as <-. split; reflexivity.
Qed.

Lemma fetch_days_all (req_get : url -> response) (historical_url : string)
      (n : nat) (current_date : Z) (weather_records : list record) (w : world) :
  Forall (fun u => exists observations, day_outcome req_get u = Ok observations)
         (day_urls historical_url current_date n) ->
  fetch_days req_get historical_url n current_date weather_records w
  = (Ok (weather_records
         ++ delivered (map (day_outcome req_get) (day_urls historical_url current_date n))),
     World (printed w) (rev (day_urls historical_url current_date n) ++ requested w)).
Proof.
  revert current_date weather_records w.
  induction n as [|n IH]; intros current_date weather_records w H.
  - cbn. rewrite app_nil_r. now destruct w.
  - rewrite day_urls_S in *. inversion H as [|? ? [observations Ho] Hrest]; subst.
    rewrite (fetch_days_step _ _ _ _ _ observations) by exact Ho.
    rewrite IH by exact Hrest.
    cbn [map delivered flat_map rev printed requested]. rewrite Ho.
    fold (delivered (map (day_outcome req_get) (day_urls historical_url (current_date + 1) n))).
    now rewrite <- !app_assoc.
Qed.

(** X13.  When every day from [start_date] up to, not including,
    [end_date] delivers its observations, the load has the observations
    of all these days in the order of the days, has requested each day
    once in that order and nothing else, and has printed nothing. *)
Theorem load_historical_records_all (req_get : url -> response) (historical_url : string)
        (start_date end_date : Z) (w : world) :
  let days := day_urls historical_url start_date (Z.to_nat (end_date - start_date)) in
  Forall (fun u => exists observations, day_outcome req_get u = Ok observations) days ->
  load_historical_records req_get historical_url start_date end_date w
  = (Ok (delivered (map (day_outcome req_get) days)),
     World (printed w) (rev days ++ requested w)).
Proof.
  cbn zeta. intro H. unfold load_historical_records.
  now rewrite fetch_days_all by exact H.
Qed.

Lemma load_historical_records_all_witness :
  load_historical_records (status_500_on 0) station_url 19728 19730 silent
  = (Ok (delivered (map (day_outcome (status_500_on 0)) (day_urls station_url 19728 2))),
     World [] (rev (day_urls station_url 19728 2) ++ [])).
Proof.
  apply (load_historical_records_all (status_500_on 0) station_url 19728 19730 silent).
  repeat constructor; eexists; reflexivity.
Defined.

(** X14.  The load stops at the first day that does not deliver: with
    the days before it delivering, it raises that day's exception
    (TypeError after a failed fetch, KeyError for a body without
    "observations"), and it has requested the days up to that one and
    none after it. *)
Theorem load_historical_records_first_failure
        (req_get : url -> response) (historical_url : string)
        (start_date end_date : Z) (w : world) (k : nat) (e : exn) :
  (k < Z.to_nat (end_date - start_date))%nat ->
  Forall (fun u => exists observations, day_outcome req_get u = Ok observations)
         (day_urls historical_url start_date k) ->
  day_outcome req_get (Url historical_url (start_date + Z.of_nat k)) = Raise e ->
  fst (load_historical_records req_get historical_url start_date end_date w) = Raise e
  /\ requested (snd (load_historical_records req_get historical_url start_date end_date w))
     = rev (day_urls historical_url start_date (S k)) ++ requested w.
Proof.
  unfold load_historical_records.
  generalize (Z.to_nat (end_date - start_date)) as n.
  generalize (@nil record) as weather_records.
  revert start_date w.
  induction k as [|k IH]; intros start_date w weather_records n Hk Hok He.
  - destruct n as [|n]; [lia|].
    rewrite Z.add_0_r in He.
    destruct (fetch_days_stop req_get historical_url n start_date weather_records w e He)
      as [H1 H2].
    split; [exact H1|]. rewrite H2. unfold day_urls. cbn [seq map rev app].
    now rewrite Z.add_0_r.
  - destruct n as [|n]; [lia|].
    rewrite day_urls_S in Hok. inversion Hok as [|? ? [observations Ho] Hrest]; subst.
    rewrite (fetch_days_step _ _ _ _ _ observations) by exact Ho.
    replace (start_date + Z.of_nat (S k)) with (start_date + 1 + Z.of_nat k) in He by lia.
    destruct (IH (start_date + 1)
                 (World (printed w) (Url historical_url start_date :: requested w))
                 (weather_records ++ observations) n ltac:(lia) Hrest He) as [H1 H2].
    split; [exact H1|]. rewrite H2. cbn [requested].
    rewrite (day_urls_S historical_url start_date (S k)). cbn [rev].
    now rewrite <- app_assoc.
Qed.

Lemma load_historical_records_first_failure_witness :
  fst (load_historical_records (unreachable_on 19729) station_url 19728 19735 silent)
  = Raise TypeError
  /\ requested (snd (load_historical_records (unreachable_on 19729) station_url
                                             19728 19735 silent))
     = rev (day_urls station_url 19728 2) ++ [].
Proof.
  apply (load_historical_records_first_failure
           (unreachable_on 19729) station_url 19728 19735 silent 1 TypeError).
  - simpl. lia.
  - repeat constructor. eexists. reflexivity.
  - reflexivity.
Defined.

(** ** The table of a load *)

(** X15.  When every day of the range delivers, [load_historical_data]
    raises KeyError if the days delivered no observation at all, and
    otherwise returns a table with one row per observation, in the order
    of delivery, each under its normalised timestamp and holding its
    condition code. *)
Theorem load_historical_data_table (req_get : url -> response) (historical_url : string)
        (start_date end_date : Z) (w : world) :
  let days := day_urls historical_url start_date (Z.to_nat (end_date - start_date)) in
  let observations := delivered (map (day_outcome req_get) days) in
  Forall (fun u => exists obs, day_outcome req_get u = Ok obs) days ->
  (observations = [] ->
   fst (load_historical_data req_get historical_url start_date end_date w) = Raise KeyError)
  /\ (observations <> [] ->
      exists table,
        fst (load_historical_data req_get historical_url start_date end_date w) = Ok table
        /\ index table = normalize_index (map observationTimeUtc observations)
        /\ values table = map conditionCode observations).
Proof.
  cbn zeta. intro H. unfold load_historical_data, load_historical_records.
  rewrite fetch_days_all by exact H. cbn [app fst].
  destruct (delivered _) as [|r rs] eqn:E.
  - split; [reflexivity | congruence].
  - split; [discriminate|]. intros _. eexists. split; [reflexivity|].
    unfold index, values, normalize_index. rewrite !map_map. split; reflexivity.
Qed.

Lemma load_historical_data_table_witness :
  exists table,
    fst (load_historical_data (status_500_on 0) station_url 19728 19730 silent) = Ok table
    /\ index table = [19728 * one_day + 2 * one_hour; 19729 * one_day + 2 * one_hour].
Proof.
  destruct (load_historical_data_table (status_500_on 0) station_url 19728 19730 silent)
    as [_ H].
  - repeat constructor; eexists; reflexivity.
  - destruct H as (table & Ht & Hi & _); [discriminate|].
    exists table. split; [exact Ht|]. rewrite Hi. vm_compute. reflexivity.
Defined.

(** X16.  With an end date that is not after the start date the loop
    does not run: nothing is requested or printed, and
    [load_historical_data] raises KeyError, for the frame built from no
    record has no column "observationTimeUtc". *)
Theorem load_historical_data_empty_range (req_get : url -> response)
        (historical_url : string) (start_date end_date : Z) (w : world) :
  end_date <= start_date ->
  load_historical_data req_get historical_url start_date end_date w = (Raise KeyError, w).
Proof.
  intro H. unfold load_historical_data, load_historical_records.
  replace (Z.to_nat (end_date - start_date)) with 0%nat by lia.
  reflexivity.
Qed.

Lemma load_historical_data_empty_range_witness :
  load_historical_data (unreachable_on 0) station_url 19730 19728 silent
  = (Raise KeyError, silent).
Proof. apply load_historical_data_empty_range. lia. Defined.

(** ** The averages *)






(** ** The library interpolation off the grid *)

Lemma resample_labels_aligned (idx : list Z) (x : Z) :
  In x (resample_labels idx) -> x mod five_minutes = 0.
Proof.
  destruct idx as [|t rest]; [intros []|].
  rewrite resample_labels_grid. unfold grid. rewrite in_map_iff.
  intros (k & <- & _). unfold floor5.
  replace (five_minutes * (minimum t rest / five_minutes) + five_minutes * Z.of_nat k)
    with ((minimum t rest / five_minutes + Z.of_nat k) * five_minutes) by lia.
  apply Z.mod_mul. discriminate.
Qed.

Lemma interpolate_from_nothing (pos : nat) (l : list (option Q)) :
  Forall (fun x => x = None) l -> interpolate_from None pos l = l.
Proof.
  revert pos. induction l as [|x l IH]; intros pos H; [reflexivity|].
  inversion H as [|? ? Hx Hl]; subst. cbn [interpolate_from]. f_equal. now apply IH.
Qed.

(** X18.  On a series of at least two hourly points of which no
    timestamp is 5-minute aligned, the library interpolation returns the
    5-minute grid with NaN under every label: no grid label carries a
    sample to start from.  (The custom interpolation returns the
    interpolated values on the same grid.) *)
Theorem built_in_unaligned_all_nan (s : Series Q) :
  (2 <= List.length s)%nat ->
  all_spaced one_hour (index s) = true ->
  (forall t, In t (index s) -> t mod five_minutes <> 0) ->
  exists r,
    built_in_interpolation s = Ok r
    /\ index r = resample_labels (index s)
    /\ List.length r = (12 * (List.length s - 1) + 1)%nat
    /\ Forall (fun row => snd row = None) r.
Proof.
  intros Hn H Hoff.
  assert (index s <> []) as Hine by (destruct s; [simpl in Hn; lia | discriminate]).
  assert (List.length (resample_labels (index s)) = (12 * (List.length s - 1) + 1)%nat)
    as Hlen.
  { rewrite (proj2 (labels_fit_iff (index s) Hine)) by (now apply hourly_span5).
    unfold index. now rewrite length_map. }
  assert (map (loc s) (resample_labels (index s))
          = map (fun _ => None) (resample_labels (index s))) as Hnone.
  { apply map_ext_in. intros x Hx. apply loc_not_in. intro Hin.
    apply (Hoff x Hin). now apply (resample_labels_aligned (index s)). }
  unfold built_in_interpolation, resample_asfreq.
  destruct (inferred_5min (index (sort_index s))
            && Nat.eqb (List.length s) (List.length (resample_labels (index s)))) eqn:E.
  { exfalso. apply andb_true_iff in E as [_ E]. apply Nat.eqb_eq in E. lia. }
  rewrite (hourly_is_unique _ H). cbn [bind].
  eexists. split; [reflexivity|].
  unfold interpolate_linear.
  assert (index (map (fun t => (t, loc s t)) (resample_labels (index s)))
          = resample_labels (index s)) as Hi
    by (unfold index; rewrite map_map; cbn [fst]; apply map_id).
  assert (values (map (fun t => (t, loc s t)) (resample_labels (index s)))
          = map (fun _ => None) (resample_labels (index s))) as Hv
    by (unfold values; rewrite map_map; cbn [snd]; exact Hnone).
  rewrite Hi, Hv.
  rewrite interpolate_from_nothing
    by (apply Forall_forall; intros x Hx; apply in_map_iff in Hx as (? & <- & _); reflexivity).
  split; [|split].
  - apply index_combine. now rewrite length_map.
  - rewrite length_combine, length_map, Hlen. lia.
  - apply Forall_forall. intros [t x] Hx. apply in_combine_r in Hx.
    apply in_map_iff in Hx as (? & <- & _). reflexivity.
Qed.

Lemma built_in_unaligned_all_nan_witness :
  exists r,
    built_in_interpolation series_unaligned = Ok r
    /\ List.length r = 13%nat
    /\ Forall (fun row => snd row = None) r.
Proof.
  destruct (built_in_unaligned_all_nan series_unaligned) as (r & Hr & _ & Hl & Hn).
  - simpl. lia.
  - reflexivity.
  - intros t [<-|[<-|[]]]; discriminate.
  - exists r. split; [exact Hr | split; [exact Hl | exact Hn]].
Defined.

(** ** The two interpolations as the script calls them *)




